(** * Configuration audit: whitelist against device output

    A shallow embedding of [config_comparison.py]: the normalisation of the
    device output, the parsing of whitelist sections, the comparator with its
    placeholder matching, the section router and the compliance score of the
    statistics sheet.

    Conventions of the model.
    - Text is 7-bit ASCII: a Python [str] is a [string]; a code above 127
      stands for itself (it is neither white space nor a cased letter).
    - A loaded JSON document is a value of [json]; a number is an integer
      (a JSON float is outside the model).  A [dict] keeps insertion order, so
      it is an association list whose first binding of a key is the live one.
    - A Python exception is the [Raise] outcome of the [result] monad;
      [try ... except Exception] is [try_except].
    - [re.match] on a pattern built from whitelist text is Python's regular
      expression engine, outside the repository: it is a Section variable.
      The one pattern the source fixes ([hostname\s+(\S+)]) is written out. *)

From Stdlib Require Import String Ascii List ZArith Bool Arith Lia.
From Stdlib Require Import Uint63 Floats.
From Stdlib Require Import DecimalString.
Import ListNotations.

Set Warnings "-register-all".

Local Open Scope nat_scope.
Local Open Scope list_scope.
Local Open Scope string_scope.

(* ================================================================== *)
(** ** Exceptions *)

Inductive result (A : Type) : Type :=
| Return (a : A)
| Raise.

Arguments Return {A} a.
Arguments Raise {A}.

Definition bind {A B : Type} (m : result A) (k : A -> result B) : result B :=
  match m with
  | Return a => k a
  | Raise => Raise
  end.

Notation "x <- m ;; k" := (bind m (fun x => k))
  (at level 61, m at next level, right associativity).

(** [try: body except Exception: return handler] *)
Definition try_except {A : Type} (body : result A) (handler : A) : A :=
  match body with
  | Return a => a
  | Raise => handler
  end.

Fixpoint mapM {A B : Type} (f : A -> result B) (l : list A) : result (list B) :=
  match l with
  | [] => Return []
  | a :: l' => b <- f a ;; bs <- mapM f l' ;; Return (b :: bs)
  end.

(* ================================================================== *)
(** ** Python string primitives *)

(** [str.isspace] on one ASCII character: TAB, LF, VT, FF, CR, the four
    separators 0x1c-0x1f and the space.  The same set is [\s] of [re]. *)
Definition is_space (c : ascii) : bool :=
  let n := nat_of_ascii c in
  (((9 <=? n) && (n <=? 13)) || ((28 <=? n) && (n <=? 32)))%nat.

Definition lower_char (c : ascii) : ascii :=
  let n := nat_of_ascii c in
  if ((65 <=? n) && (n <=? 90))%nat then ascii_of_nat (n + 32) else c.

(** [s.lower()] *)
Fixpoint lower (s : string) : string :=
  match s with
  | EmptyString => EmptyString
  | String c s' => String (lower_char c) (lower s')
  end.

Fixpoint lstrip_by (p : ascii -> bool) (s : string) : string :=
  match s with
  | EmptyString => EmptyString
  | String c s' => if p c then lstrip_by p s' else s
  end.

Fixpoint rstrip_by (p : ascii -> bool) (s : string) : string :=
  match s with
  | EmptyString => EmptyString
  | String c s' =>
      match rstrip_by p s' with
      | EmptyString => if p c then EmptyString else String c EmptyString
      | r => String c r
      end
  end.

(** [s.strip(chars)], the set [chars] given as a predicate *)
Definition strip_by (p : ascii -> bool) (s : string) : string :=
  rstrip_by p (lstrip_by p s).

(** [s.strip()] *)
Definition strip (s : string) : string := strip_by is_space s.

(** [s.startswith(pre)] *)
Definition startswith (s pre : string) : bool := prefix pre s.

(** [sub in s] for two strings *)
Fixpoint contains (sub s : string) : bool :=
  prefix sub s ||
  match s with
  | EmptyString => false
  | String _ s' => contains sub s'
  end.

Definition newline : ascii := "010"%char.

(** [s.split('\n')]: never empty, [''.split('\n') == ['']] *)
Fixpoint split_nl (s : string) : list string :=
  match s with
  | EmptyString => [EmptyString]
  | String c s' =>
      if Ascii.eqb c newline then EmptyString :: split_nl s'
      else match split_nl s' with
           | h :: t => String c h :: t
           | [] => [String c EmptyString]
           end
  end.

(** [s.replace(old, new)] for a non-empty [old]: occurrences are replaced
    from the left and do not overlap; [skip] counts the characters of an
    occurrence still to be passed over. *)
Fixpoint replace_from (old new : string) (skip : nat) (s : string) : string :=
  match s with
  | EmptyString => EmptyString
  | String c s' =>
      match skip with
      | S k => replace_from old new k s'
      | O =>
          if prefix old s
          then new ++ replace_from old new (String.length old - 1) s'
          else String c (replace_from old new 0 s')
      end
  end.

Definition replace (s old new : string) : string := replace_from old new 0 s.

(** [sep.join(items)] is [String.concat sep items]. *)
Definition join (sep : string) (items : list string) : string :=
  String.concat sep items.

Definition nonempty (s : string) : bool :=
  match s with
  | EmptyString => false
  | String _ _ => true
  end.

(* ================================================================== *)
(** ** JSON values as [json.load] builds them *)

Inductive json : Type :=
| JNull
| JBool (b : bool)
| JInt (n : Z)
| JStr (s : string)
| JList (l : list json)
| JDict (d : list (string * json)).

Definition dict : Type := list (string * json).

Fixpoint lookup {V : Type} (k : string) (d : list (string * V)) : option V :=
  match d with
  | [] => None
  | (k', v) :: d' => if String.eqb k k' then Some v else lookup k d'
  end.

Definition keys {V : Type} (d : list (string * V)) : list string := map fst d.

(** Truth value of an object, as [if x] takes it. *)
Definition truthy (v : json) : bool :=
  match v with
  | JNull => false
  | JBool b => b
  | JInt n => negb (Z.eqb n 0)
  | JStr s => nonempty s
  | JList l => match l with [] => false | _ => true end
  | JDict d => match d with [] => false | _ => true end
  end.

Definition isinstance_str (v : json) : bool :=
  match v with JStr _ => true | _ => false end.
Definition isinstance_list (v : json) : bool :=
  match v with JList _ => true | _ => false end.
Definition isinstance_dict (v : json) : bool :=
  match v with JDict _ => true | _ => false end.

(** *** [str(x)] and [repr(x)] *)

Definition squote : ascii := "039"%char.
Definition dquote : ascii := "034"%char.
Definition backslash : ascii := "092"%char.

Definition hex_digit (n : nat) : ascii :=
  if (n <? 10)%nat then ascii_of_nat (48 + n) else ascii_of_nat (87 + n).

Definition repr_char (quote c : ascii) : string :=
  let n := nat_of_ascii c in
  if Ascii.eqb c quote || Ascii.eqb c backslash then String backslash (String c "")
  else if (n =? 9)%nat then String backslash "t"
  else if (n =? 10)%nat then String backslash "n"
  else if (n =? 13)%nat then String backslash "r"
  else if ((n <? 32) || (n =? 127))%nat
       then String backslash
              (String "x" (String (hex_digit (n / 16)) (String (hex_digit (n mod 16)) "")))
  else String c "".

Fixpoint repr_chars (quote : ascii) (s : string) : string :=
  match s with
  | EmptyString => EmptyString
  | String c s' => repr_char quote c ++ repr_chars quote s'
  end.

(** [repr] of a string: single quotes, unless the text has a single quote and
    no double quote. *)
Definition repr_str (s : string) : string :=
  let quote :=
    if contains (String squote "") s && negb (contains (String dquote "") s)
    then dquote else squote in
  String quote (repr_chars quote s ++ String quote "").

Fixpoint py_repr (v : json) : string :=
  match v with
  | JNull => "None"
  | JBool true => "True"
  | JBool false => "False"
  | JInt n => NilZero.string_of_int (Z.to_int n)
  | JStr s => repr_str s
  | JList l => "[" ++ join ", " (map py_repr l) ++ "]"
  | JDict d =>
      "{" ++ join ", " (map (fun kv => match kv with
                                        | (k, x) => repr_str k ++ ": " ++ py_repr x
                                        end) d) ++ "}"
  end.

(** [str(x)] *)
Definition py_str (v : json) : string :=
  match v with
  | JStr s => s
  | _ => py_repr v
  end.

(** *** Operations that raise on the wrong type *)

(** [key in container], [key] a string *)
Definition py_in (key : string) (container : json) : result bool :=
  match container with
  | JDict d => Return (match lookup key d with Some _ => true | None => false end)
  | JList l =>
      Return (existsb (fun x => match x with
                                | JStr s => String.eqb key s
                                | _ => false
                                end) l)
  | JStr s => Return (contains key s)
  | _ => Raise
  end.

(** [container[key]], [key] a string: only a dict can be indexed by it *)
Definition py_getitem (container : json) (key : string) : result json :=
  match container with
  | JDict d => match lookup key d with Some v => Return v | None => Raise end
  | _ => Raise
  end.

(** [container.keys()] *)
Definition py_keys (container : json) : result (list string) :=
  match container with
  | JDict d => Return (keys d)
  | _ => Raise
  end.

(** [container.get(key, default)] *)
Definition py_get (container : json) (key : string) (default : json) : result json :=
  match container with
  | JDict d => Return (match lookup key d with Some v => v | None => default end)
  | _ => Raise
  end.

(** [x.lower()]: only a string has the method *)
Definition py_lower (v : json) : result string :=
  match v with
  | JStr s => Return (lower s)
  | _ => Raise
  end.

(* ================================================================== *)
(** ** [trim_whitespace] *)

Definition trim_whitespace (text : json) : string :=
  match text with
  | JStr s => strip s
  | _ => strip (py_str text)
  end.

(* ================================================================== *)
(** ** [extract_hostname_from_output] *)

(** The pattern [hostname\s+(\S+)] under [re.IGNORECASE].  The literal part
    is compared after lower-casing the text. *)
Fixpoint prefix_ci (pat s : string) : bool :=
  match pat with
  | EmptyString => true
  | String a pat' =>
      match s with
      | EmptyString => false
      | String b s' => Ascii.eqb a (lower_char b) && prefix_ci pat' s'
      end
  end.

Fixpoint drop (n : nat) (s : string) : string :=
  match n, s with
  | S k, String _ s' => drop k s'
  | _, _ => s
  end.

Fixpoint take_while (p : ascii -> bool) (s : string) : string :=
  match s with
  | EmptyString => EmptyString
  | String c s' => if p c then String c (take_while p s') else EmptyString
  end.

Definition not_space (c : ascii) : bool := negb (is_space c).

(** An attempt of the pattern at the head of [s]: the literal, the longest
    run of white space (one character at least), the longest run of
    other characters (one at least), which is group 1.  A shorter run of
    white space would leave white space in front of [\S], so backtracking
    finds nothing more. *)
Definition hostname_at (s : string) : option string :=
  if prefix_ci "hostname" s then
    match drop 8 s with
    | String c rest =>
        if is_space c then
          let token := lstrip_by is_space rest in
          if nonempty token then Some (take_while not_space token) else None
        else None
    | EmptyString => None
    end
  else None.

(** [re.search(r'hostname\s+(\S+)', line, re.IGNORECASE)], giving
    [match.group(1)]: the leftmost position where an attempt succeeds. *)
Fixpoint hostname_search (line : string) : option string :=
  match hostname_at line with
  | Some token => Some token
  | None =>
      match line with
      | EmptyString => None
      | String _ line' => hostname_search line'
      end
  end.

(** The test and the search made on one line of either loop. *)
Definition hostname_in_line (line : string) : option string :=
  if contains "hostname" (lower line) then hostname_search line else None.

(** [for line in data['version']]; [Some t] is [return t] from the loop. *)
Fixpoint scan_version (lines : list json) : option string :=
  match lines with
  | [] => None
  | JStr line :: rest =>
      match hostname_in_line line with
      | Some token => Some token
      | None => scan_version rest
      end
  | _ :: rest => scan_version rest
  end.

(** [for line in data['run_config'].split('\n')] *)
Fixpoint scan_run_config (lines : list string) : option string :=
  match lines with
  | [] => None
  | line :: rest =>
      match hostname_in_line line with
      | Some token => Some token
      | None => scan_run_config rest
      end
  end.

Definition extract_hostname_body (output_data : json) : result string :=
  has_data <- py_in "data" output_data ;;
  if has_data : bool then
    data <- py_getitem output_data "data" ;;
    from_version <-
      (has_version <- py_in "version" data ;;
       if has_version : bool then
         version <- py_getitem data "version" ;;
         match version with
         | JList lines => Return (scan_version lines)
         | _ => Return None
         end
       else Return None) ;;
    match from_version with
    | Some token => Return token
    | None =>
        from_run_config <-
          (has_run_config <- py_in "run_config" data ;;
           if has_run_config : bool then
             run_config <- py_getitem data "run_config" ;;
             match run_config with
             | JStr text => Return (scan_run_config (split_nl text))
             | _ => Return None
             end
           else Return None) ;;
        match from_run_config with
        | Some token => Return token
        | None => Return "Unknown-Device"
        end
    end
  else Return "Unknown-Device".

Definition extract_hostname_from_output (output_data : json) : string :=
  try_except (extract_hostname_body output_data) "Unknown-Device".

(* ================================================================== *)
(** ** [parse_whitelist_section] *)

Definition is_char (q c : ascii) : bool := Ascii.eqb c q.

(** One line of a [must_include] given as a single string. *)
Definition whitelist_text_line (raw : string) : list string :=
  let line := strip raw in
  if nonempty line && negb (startswith line "#") then
    let line := strip_by (is_char squote) (strip_by (is_char dquote) line) in
    if nonempty line then [line] else []
  else [].

Definition parse_whitelist_section_body (section_data : json)
  : result (list string) :=
  let config_lines :=
    match section_data with
    | JDict d =>
        match lookup "must_include" d with
        | Some (JList must_include) =>
            map trim_whitespace (filter truthy must_include)
        | Some (JStr must_include) =>
            flat_map whitelist_text_line (split_nl must_include)
        | _ => []
        end
    | _ => []
    end in
  Return (filter nonempty config_lines).

Definition parse_whitelist_section (section_data : json) : list string :=
  try_except (parse_whitelist_section_body section_data) [].

(* ================================================================== *)
(** ** [parse_output_section] *)

(** [line and not line.startswith('!')] *)
Definition keep_line (line : string) : bool :=
  nonempty line && negb (startswith line "!").

Definition kept (line : string) : list string :=
  if keep_line line then [line] else [].

Definition vty_line_group (line_group : json) : list string :=
  match line_group with
  | JList lines => filter keep_line (map trim_whitespace lines)
  | _ => []
  end.

Definition text_lines (text : string) : list string :=
  filter keep_line (map strip (split_nl text)).

Definition vty_stdout_item (item : json) : list string :=
  match item with
  | JStr text => text_lines text
  | _ => []
  end.

Definition list_item (item : json) : list string :=
  match item with
  | JStr s => kept (strip s)
  | JList xs => kept (strip (join " " (map py_str (filter truthy xs))))
  | _ => []
  end.

Definition parse_output_section_body (section_data : json) (section_name : string)
  : result (list string) :=
  Return
    (if String.eqb section_name "vty" && isinstance_dict section_data then
       match section_data with
       | JDict d =>
           match lookup "stdout_lines" d with
           | Some stdout_lines =>
               (* an empty list is falsy and is skipped: no line either way *)
               match stdout_lines with
               | JList groups => flat_map vty_line_group groups
               | _ => []
               end
           | None =>
               match lookup "stdout" d with
               | Some (JList items) => flat_map vty_stdout_item items
               | _ => []
               end
           end
       | _ => []
       end
     else
       match section_data with
       | JList items => flat_map list_item items
       | JStr text => text_lines text
       | _ => []
       end).

Definition parse_output_section (section_data : json) (section_name : string)
  : list string :=
  try_except (parse_output_section_body section_data section_name) [].

(* ================================================================== *)
(** ** [compare_configurations] *)

(** What [re.match(pattern, text)] does: a match object, [None], or
    [re.error] for a pattern that does not compile. *)
Inductive re_outcome : Type :=
| ReMatch
| ReNoMatch
| ReError.

Definition in_list (s : string) (l : list string) : bool :=
  existsb (String.eqb s) l.

(** ['[' in line and ']' in line] *)
Definition has_placeholder (line : string) : bool :=
  contains "[" line && contains "]" line.

(** The five replacements made on a whitelist line, in the source's order. *)
Definition placeholder_pattern (whitelist_line : string) : string :=
  let pattern := whitelist_line in
  let pattern := replace pattern "[x.x.x.x]" "\d+\.\d+\.\d+\.\d+" in
  let pattern := replace pattern "[community string]" "\S+" in
  let pattern := replace pattern "[username]" "\S+" in
  let pattern := replace pattern "[building, site, country]" ".+" in
  let pattern := replace pattern "[description]" ".+" in
  pattern.

Definition skip_patterns : list string :=
  ["building configuration"; "current configuration"; "version";
   "service timestamps"].

(** [any(pattern in current_normalized for pattern in skip_patterns)] *)
Definition is_boilerplate (current_normalized : string) : bool :=
  existsb (fun pattern => contains pattern current_normalized) skip_patterns.

Definition missing_message (required_line hostname : string) : string :=
  "missing config: " ++ required_line ++ ":" ++ hostname.

Definition additional_message (current_line hostname : string) : string :=
  "additional config: " ++ current_line ++ ":" ++ hostname.

(** [trim_whitespace(line.lower())] *)
Definition normalize (line : json) : result string :=
  lowered <- py_lower line ;;
  Return (trim_whitespace (JStr lowered)).

(** ** The summary rows and the alias table of [process_device_comparison] *)

Inductive Status : Type :=
| OK
| to_check
| error.

Record summary_row : Type := {
  section : string;
  hostname : string;
  status : Status;
  missing_count : nat;
  additional_count : nat
}.

Definition section_mapping : list (string * string) :=
  [ ("vty", "vty");
    ("snmp_Run", "snmp");
    ("snmp_run", "snmp");
    ("dhcp", "dhcp");
    ("tacacs", "TACACS");
    ("vlan", "vlan");
    ("logging", "Log_server");
    ("mtu", "mtu");
    ("vtyaccess_acl", "vty_ACL");
    ("snmp_ro_acl", "snmp_ACL");
    ("source_interface", "run_config");
    ("ntp", "ntp");
    ("interface_section", "run_config");
    ("version", "version");
    ("license", "License_status");
    ("clock_detail", "clock") ].

(** [for key in device_data.keys()]: the first key equal to the mapped name
    up to case gives the section; [JNull] is Python's [None]. *)
Fixpoint scan_keys (device_data : json) (mapped_section : string)
         (ks : list string) : result json :=
  match ks with
  | [] => Return JNull
  | key :: rest =>
      if String.eqb (lower key) (lower mapped_section)
      then py_getitem device_data key
      else scan_keys device_data mapped_section rest
  end.

Definition error_row (section_name host : string) : summary_row :=
  {| section := section_name; hostname := host; status := error;
     missing_count := 0; additional_count := 0 |}.

Section Comparator.

Variable re_match : string -> string -> re_outcome.

(** The loop over [whitelist_normalized] that sets [is_dynamic]. *)
Fixpoint is_dynamic (whitelist_normalized : list string)
         (current_normalized : string) : bool :=
  match whitelist_normalized with
  | [] => false
  | whitelist_line :: rest =>
      if has_placeholder whitelist_line then
        match re_match (placeholder_pattern whitelist_line) current_normalized with
        | ReMatch => true                                   (* break *)
        | ReNoMatch => is_dynamic rest current_normalized
        | ReError => is_dynamic rest current_normalized     (* except: continue *)
        end
      else is_dynamic rest current_normalized
  end.

(** The first loop, over [whitelist_config]. *)
Fixpoint missing_loop (output_normalized : list string) (hostname : string)
         (whitelist_config : list json) : result (list string) :=
  match whitelist_config with
  | [] => Return []
  | required_line :: rest =>
      required_normalized <- normalize required_line ;;
      later <- missing_loop output_normalized hostname rest ;;
      if has_placeholder required_normalized then Return later
      else if negb (in_list required_normalized output_normalized)
           then Return (missing_message (py_str required_line) hostname :: later)
           else Return later
  end.

(** The second loop, over [output_config]. *)
Fixpoint additional_loop (whitelist_normalized : list string) (hostname : string)
         (output_config : list json) : result (list string) :=
  match output_config with
  | [] => Return []
  | current_line :: rest =>
      current_normalized <- normalize current_line ;;
      later <- additional_loop whitelist_normalized hostname rest ;;
      if is_boilerplate current_normalized then Return later
      else if negb (in_list current_normalized whitelist_normalized)
           then if negb (is_dynamic whitelist_normalized current_normalized)
                then Return (additional_message (py_str current_line) hostname :: later)
                else Return later
           else Return later
  end.

(** The annotations say [List[str]]; nothing enforces them, so the two
    lists hold any value and [.lower()] raises on one that is no string. *)
Definition compare_configurations_body
           (output_config whitelist_config : list json)
           (hostname section_name : string)
  : result (list string * list string) :=
  output_normalized <- mapM normalize output_config ;;
  whitelist_normalized <- mapM normalize whitelist_config ;;
  missing_configs <- missing_loop output_normalized hostname whitelist_config ;;
  additional_configs <- additional_loop whitelist_normalized hostname output_config ;;
  Return (missing_configs, additional_configs).

Definition compare_configurations
           (output_config whitelist_config : list json)
           (hostname section_name : string)
  : list string * list string :=
  try_except
    (compare_configurations_body output_config whitelist_config hostname section_name)
    ([], []).

(* ================================================================ *)
(** ** [process_device_comparison] *)

(** Finding the section of the output: the alias, then the name itself,
    then the keys up to case. *)
Definition resolve_output_section (device_data : json) (section_name : string)
  : result json :=
  let mapped_section :=
    match lookup section_name section_mapping with
    | Some mapped => mapped
    | None => section_name
    end in
  found <- py_in mapped_section device_data ;;
  if found : bool then py_getitem device_data mapped_section
  else ks <- py_keys device_data ;;
       scan_keys device_data mapped_section ks.

(** From the resolved section to the pair the comparator returns. *)
Definition section_findings (host : string) (device_data : json)
           (section_name : string) (required_configs : list string)
  : result (list string * list string) :=
  output_section <- resolve_output_section device_data section_name ;;
  let current_configs :=
    match output_section with
    | JNull => []
    | _ => parse_output_section output_section section_name
    end in
  Return (compare_configurations (map JStr current_configs)
                                 (map JStr required_configs) host section_name).

Definition section_status (missing_configs additional_configs : list string)
  : Status :=
  match missing_configs, additional_configs with
  | [], [] => OK
  | _, _ => to_check
  end.

(** The body of the inner [try] for one whitelist section.  [None] is the
    [continue] of a section without requirements; otherwise the row and
    the findings the section appends.  Every operation that can raise
    comes before the first append, so a fault leaves both lists as they
    were. *)
Definition section_body (host : string) (device_data : json)
           (section_name : string) (whitelist_section : json)
  : result (option (summary_row * list string)) :=
  let required_configs := parse_whitelist_section whitelist_section in
  match required_configs with
  | [] => Return None
  | _ :: _ =>
      found <- section_findings host device_data section_name required_configs ;;
      let '(missing_configs, additional_configs) := found in
      Return (Some ({| section := section_name; hostname := host;
                       status := section_status missing_configs additional_configs;
                       missing_count := List.length missing_configs;
                       additional_count := List.length additional_configs |},
                    (missing_configs ++ additional_configs)%list))
  end.

(** [for section_name, whitelist_section in whitelist_data.items()] *)
Fixpoint section_loop (host : string) (device_data : json)
         (items : list (string * json))
         (summary_data : list summary_row) (issues_list : list string)
  : list summary_row * list string :=
  match items with
  | [] => (summary_data, issues_list)
  | (section_name, whitelist_section) :: rest =>
      match section_body host device_data section_name whitelist_section with
      | Return None =>
          section_loop host device_data rest summary_data issues_list
      | Return (Some (row, findings)) =>
          section_loop host device_data rest
                       (summary_data ++ [row])%list (issues_list ++ findings)%list
      | Raise =>
          section_loop host device_data rest
                       (summary_data ++ [error_row section_name host])%list
                       issues_list
      end
  end.

Definition process_device_comparison_body (output_data : json) (whitelist_data : dict)
  : result (list summary_row * list string) :=
  let host := extract_hostname_from_output output_data in
  device_data <- py_get output_data "data" (JDict []) ;;
  Return (section_loop host device_data whitelist_data [] []).

Definition process_device_comparison (output_data : json) (whitelist_data : dict)
  : list summary_row * list string :=
  try_except (process_device_comparison_body output_data whitelist_data) ([], []).

End Comparator.

(* ================================================================== *)
(** ** The statistics sheet of [create_excel_report] *)

Definition count_status (st : Status) (summary_data : list summary_row) : nat :=
  List.length (filter (fun s => match status s, st with
                             | OK, OK | to_check, to_check | error, error => true
                             | _, _ => false
                             end) summary_data).

(** An [int] as the [float] of a true division or of a product with a
    float; exact for the counts of a run (below 2^53). *)
Definition float_of_nat (n : nat) : float :=
  PrimFloat.of_uint63 (Uint63.of_Z (Z.of_nat n)).

(** [max(0, k / total * 100)] in binary64 arithmetic; [max] keeps its first
    argument unless the second is greater. *)
Definition percentage (k total : nat) : float :=
  let x := (float_of_nat k / float_of_nat total * 100)%float in
  if (0 <? x)%float then x else 0%float.

(** [max(0, (total - to_check) / total * 100) if total > 0 else 100] *)
Definition compliance_score (summary_data : list summary_row) : float :=
  let total_sections := List.length summary_data in
  if (0 <? total_sections)%nat then
    percentage (total_sections - count_status to_check summary_data) total_sections
  else 100%float.

(** The integer the format [.0f] prints: the one nearest to the exact value
    of the float, the even one at a tie.  Infinities and NaN print as words;
    a quotient of counts is neither, and they are given 0 here. *)
Definition format_0f (x : float) : Z :=
  match Prim2SF x with
  | S754_finite negative m e =>
      let n := Zpos m in
      let magnitude :=
        if (0 <=? e)%Z then (n * 2 ^ e)%Z
        else
          let d := (2 ^ (- e))%Z in
          let q := (n / d)%Z in
          let r := (n mod d)%Z in
          if (2 * r <? d)%Z then q
          else if (d <? 2 * r)%Z then (q + 1)%Z
          else if Z.even q then q else (q + 1)%Z in
      if negative then (- magnitude)%Z else magnitude
  | _ => 0%Z
  end.

Record statistics : Type := {
  device_hostname : string;
  total_sections : nat;
  total_issues : nat;
  missing_configurations : nat;
  additional_configurations : nat;
  compliance_percent : Z
}.

(** The third sheet; it is written only [if summary_data]. *)
Definition statistics_sheet (summary_data : list summary_row) (issues_list : list string)
  : option statistics :=
  match summary_data with
  | [] => None
  | first :: _ =>
      Some {| device_hostname := hostname first;
              total_sections := List.length summary_data;
              total_issues := List.length issues_list;
              missing_configurations :=
                List.length (filter (contains "missing config:") issues_list);
              additional_configurations :=
                List.length (filter (contains "additional config:") issues_list);
              compliance_percent := format_0f (compliance_score summary_data) |}
  end.

(* ================================================================== *)
(** ** A matcher for the patterns the placeholder table produces

    Literal characters, [.], [\d], [\S] and [\.], each optionally followed by
    [+], matched at the start of the text as [re.match] does.  On these
    patterns it answers as Python does; a pattern with any other special
    character is outside the fragment and is answered [ReError].  It
    instantiates the engine in the examples; the theorems hold for every
    engine. *)

Inductive atom : Type :=
| ALit (c : ascii)
| ADigit
| ANonSpace
| AAny.

Inductive token : Type :=
| TAtom (a : atom)
| TPlus.

Definition is_special (c : ascii) : bool :=
  existsb (Ascii.eqb c)
          (list_ascii_of_string "[](){}*?|^$").

Fixpoint tokenize (escaped : bool) (pattern : string) : option (list token) :=
  match pattern with
  | EmptyString => if escaped then None else Some []
  | String c rest =>
      if escaped then
        match (if Ascii.eqb c "d" then Some ADigit
               else if Ascii.eqb c "S" then Some ANonSpace
               else if Ascii.eqb c "." then Some (ALit ".")
               else None) with
        | Some a => option_map (cons (TAtom a)) (tokenize false rest)
        | None => None
        end
      else if Ascii.eqb c backslash then tokenize true rest
      else if Ascii.eqb c "+" then option_map (cons TPlus) (tokenize false rest)
      else if Ascii.eqb c "." then option_map (cons (TAtom AAny)) (tokenize false rest)
      else if is_special c then None
      else option_map (cons (TAtom (ALit c))) (tokenize false rest)
  end.

(** An atom with its repetition: [true] for one or more. *)
Fixpoint items (ts : list token) : option (list (atom * bool)) :=
  match ts with
  | [] => Some []
  | TAtom a :: TPlus :: rest => option_map (cons (a, true)) (items rest)
  | TAtom a :: rest => option_map (cons (a, false)) (items rest)
  | TPlus :: _ => None
  end.

Definition is_digit (c : ascii) : bool :=
  let n := nat_of_ascii c in ((48 <=? n) && (n <=? 57))%nat.

Definition atom_accepts (a : atom) (c : ascii) : bool :=
  match a with
  | ALit l => Ascii.eqb c l
  | ADigit => is_digit c
  | ANonSpace => not_space c
  | AAny => negb (Ascii.eqb c newline)
  end.

(** Does some prefix of [text] match the items?  Backtracking over the length
    of each repetition. *)
Fixpoint match_items (its : list (atom * bool)) (text : string) : bool :=
  match its with
  | [] => true
  | (a, false) :: rest =>
      match text with
      | String c text' => atom_accepts a c && match_items rest text'
      | EmptyString => false
      end
  | (a, true) :: rest =>
      (fix repeat (t : string) : bool :=
         match t with
         | String c t' => atom_accepts a c && (match_items rest t' || repeat t')
         | EmptyString => false
         end) text
  end.

Definition re_fragment (pattern text : string) : re_outcome :=
  match tokenize false pattern with
  | Some ts =>
      match items ts with
      | Some its => if match_items its text then ReMatch else ReNoMatch
      | None => ReError
      end
  | None => ReError
  end.

(* ================================================================== *)
(** ** [parse_whitelist_manual]

    The file is read with [readlines]; the function is modelled from the list
    of lines that call returns, each line still carrying its line end. *)

(** [d[key] = value]: a key already there keeps its place and takes the new
    value, a new key goes to the end. *)
Fixpoint dict_set {V : Type} (key : string) (value : V) (d : list (string * V))
  : list (string * V) :=
  match d with
  | [] => [(key, value)]
  | (k, v) :: d' =>
      if String.eqb key k then (k, value) :: d'
      else (k, v) :: dict_set key value d'
  end.

(** [s.endswith(c)] for a one-character [c] *)
Fixpoint endswith_char (s : string) (c : ascii) : bool :=
  match s with
  | EmptyString => false
  | String a EmptyString => Ascii.eqb a c
  | String _ s' => endswith_char s' c
  end.

(** [s[:-1]] *)
Fixpoint drop_last (s : string) : string :=
  match s with
  | EmptyString => EmptyString
  | String _ EmptyString => EmptyString
  | String c s' => String c (drop_last s')
  end.

(** The characters of [rstrip('\r\n')] *)
Definition is_line_end (c : ascii) : bool :=
  Ascii.eqb c "013"%char || Ascii.eqb c newline.

Definition is_quoted (item : string) : bool :=
  startswith item (String dquote "") && endswith_char item dquote.

(** [item[1:-1]] when the item is quoted *)
Definition unquote (item : string) : string :=
  if is_quoted item then drop_last (drop 1 item) else item.

(** From the stripped line to the item: the quotes, or the list marker and
    then the quotes. *)
Definition clean_item (item : string) : string :=
  if is_quoted item then drop_last (drop 1 item)
  else if startswith item "- " then unquote (drop 2 item)
  else item.

Record parser_state : Type := {
  parsed_data : dict;
  current_section : option string;      (* [None] before the first header *)
  current_items : list string
}.

Definition section_value (items : list string) : json :=
  JDict [("must_include", JList (map JStr items))].

(** [if current_section and current_items: parsed_data[current_section] = ...] *)
Definition flush (st : parser_state) : dict :=
  match current_section st, current_items st with
  | Some name, _ :: _ =>
      if nonempty name
      then dict_set name (section_value (current_items st)) (parsed_data st)
      else parsed_data st
  | _, _ => parsed_data st
  end.

(** One turn of [for line in lines]. *)
Definition parser_step (st : parser_state) (raw : string) : parser_state :=
  let line := rstrip_by is_line_end raw in
  if nonempty line && negb (startswith line " ") && endswith_char line ":" then
    {| parsed_data := flush st;
       current_section := Some (drop_last line);
       current_items := [] |}
  else if String.eqb (strip line) "must_include:" then st
  else if nonempty line
          && (startswith line (String dquote "") || startswith line "  ") then
    let item := clean_item (strip line) in
    if nonempty item then
      {| parsed_data := parsed_data st;
         current_section := current_section st;
         current_items := (current_items st ++ [item])%list |}
    else st
  else st.

Definition parser_start : parser_state :=
  {| parsed_data := []; current_section := None; current_items := [] |}.

Definition parse_whitelist_manual_body (lines : list string) : result dict :=
  Return (flush (fold_left parser_step lines parser_start)).

Definition parse_whitelist_manual (lines : list string) : dict :=
  try_except (parse_whitelist_manual_body lines) [].

(* ================================================================== *)
(** ** The summary sheet of [create_excel_report] *)

Definition upper_char (c : ascii) : ascii :=
  let n := nat_of_ascii c in
  if ((97 <=? n) && (n <=? 122))%nat then ascii_of_nat (n - 32) else c.

(** [s.upper()] *)
Fixpoint upper (s : string) : string :=
  match s with
  | EmptyString => EmptyString
  | String c s' => String (upper_char c) (upper s')
  end.

(** The text a status has in a row. *)
Definition status_text (st : Status) : string :=
  match st with
  | OK => "OK"
  | to_check => "to_check"
  | error => "error"
  end.

(** [summary_df_data]: the two fixed columns, then one assignment for each
    row under the upper-cased name of its section; every column holds a
    one-element list.  The sheet is written only [if summary_data]. *)
Definition summary_sheet (summary_data : list summary_row)
  : option (list (string * json)) :=
  match summary_data with
  | [] => None
  | first :: _ =>
      Some (fold_left
              (fun summary_df_data item =>
                 dict_set (upper (section item))
                          (JList [JStr (status_text (status item))])
                          summary_df_data)
              summary_data
              [("SR.No.", JList [JInt 1]);
               ("hostname of the devices", JList [JStr (hostname first)])])
  end.

(* ================================================================== *)
(** * Vocabulary of the statements *)

(** The form under which lines are compared: lower case, trimmed. *)
Definition normalized (line : string) : string := strip (lower line).

Definition is_str (v : json) : Prop := exists s, v = JStr s.

(** A required line is reported unless it has a placeholder or is present. *)
Definition is_missing (output_normalized : list string) (required_line : string) : bool :=
  negb (has_placeholder (normalized required_line))
  && negb (in_list (normalized required_line) output_normalized).

Definition is_missing_finding (h f : string) : Prop :=
  exists body, f = "missing config: " ++ body ++ ":" ++ h.

Definition is_additional_finding (h f : string) : Prop :=
  exists body, f = "additional config: " ++ body ++ ":" ++ h.

Definition is_finding (host f : string) : Prop :=
  is_missing_finding host f \/ is_additional_finding host f.

Definition has_requirements (item : string * json) : bool :=
  match parse_whitelist_section (snd item) with
  | [] => false
  | _ :: _ => true
  end.

Section Vocabulary.

Variable re_match : string -> string -> re_outcome.

(** A current line is reported unless it is boilerplate, equals a template
    or matches the pattern of a template with a placeholder. *)
Definition is_additional (whitelist_normalized : list string) (current_line : string)
  : bool :=
  negb (is_boilerplate (normalized current_line))
  && negb (in_list (normalized current_line) whitelist_normalized)
  && negb (is_dynamic re_match whitelist_normalized (normalized current_line)).

(** What a row of the summary says about the section it was made for. *)
Definition row_of_section (host : string) (device_data : json)
           (item : string * json) (row : summary_row) : Prop :=
  section row = fst item
  /\ hostname row = host
  /\ match section_findings re_match host device_data (fst item)
                            (parse_whitelist_section (snd item)) with
     | Return (missing, extra) =>
         (status row = OK <-> missing = [] /\ extra = [])
         /\ (status row <> OK -> status row = to_check)
         /\ missing_count row = List.length missing
         /\ additional_count row = List.length extra
     | Raise =>
         status row = error /\ missing_count row = 0 /\ additional_count row = 0
     end.

End Vocabulary.

(** Follows the spec's words: the lines scanned, in order, are those of the
    [version] section when it is a list (its strings) and then those of the
    [run_config] section when it is one string. *)
Definition strings_of (values : list json) : list string :=
  flat_map (fun v => match v with JStr s => [s] | _ => [] end) values.

Definition hostname_lines (data : dict) : list string :=
  (match lookup "version" data with
   | Some (JList lines) => strings_of lines
   | _ => []
   end
   ++
   match lookup "run_config" data with
   | Some (JStr text) => split_nl text
   | _ => []
   end)%list.

(** Follows the spec's words: the token of the first line that has the
    pattern. *)
Fixpoint first_token (lines : list string) : option string :=
  match lines with
  | [] => None
  | line :: rest =>
      match hostname_search line with
      | Some token => Some token
      | None => first_token rest
      end
  end.

(** Follows the spec's words: that token, or the default when no line has
    the pattern or the document has no mapping under [data]. *)
Definition hostname_spec (output_data : json) : string :=
  match output_data with
  | JDict od =>
      match lookup "data" od with
      | Some (JDict data) =>
          match first_token (hostname_lines data) with
          | Some token => token
          | None => "Unknown-Device"
          end
      | _ => "Unknown-Device"
      end
  | _ => "Unknown-Device"
  end.

(** A run on an output document whose [data] is a list: every section
    faults while it is resolved. *)
Definition faulted_run : list summary_row * list string :=
  process_device_comparison
    re_fragment
    (JDict [("data", JList [])])
    [("ntp", JDict [("must_include", JList [JStr "ntp server 10.0.0.1"])])].

(** A line as the normalizer emits it: kept, and equal to its trimmed form. *)
Definition config_line (line : string) : Prop :=
  keep_line line = true /\ strip line = line.

(** The name under which a whitelist section is looked up in the output. *)
Definition section_alias (section_name : string) : string :=
  match lookup section_name section_mapping with
  | Some mapped => mapped
  | None => section_name
  end.

(** What one whitelist section adds to the summary and to the issue list. *)
Definition section_rows (re_match : string -> string -> re_outcome)
           (host : string) (device_data : json) (item : string * json)
  : list summary_row :=
  match section_body re_match host device_data (fst item) (snd item) with
  | Return None => []
  | Return (Some (row, _)) => [row]
  | Raise => [error_row (fst item) host]
  end.

Definition section_issues (re_match : string -> string -> re_outcome)
           (host : string) (device_data : json) (item : string * json)
  : list string :=
  match section_body re_match host device_data (fst item) (snd item) with
  | Return (Some (_, findings)) => findings
  | _ => []
  end.

(** The two counts of a row fit its status. *)
Definition counts_fit_status (row : summary_row) : Prop :=
  match status row with
  | OK => missing_count row = 0 /\ additional_count row = 0
  | to_check => 0 < missing_count row + additional_count row
  | error => missing_count row = 0 /\ additional_count row = 0
  end.

Definition findings_counted (summary_data : list summary_row) : nat :=
  list_sum (map (fun row => missing_count row + additional_count row) summary_data).

(** The assignment made for one row of the summary sheet. *)
Definition set_column (summary_df_data : list (string * json)) (item : summary_row)
  : list (string * json) :=
  dict_set (upper (section item)) (JList [JStr (status_text (status item))])
           summary_df_data.

(** A whitelist file in the layout the parser is written for: the name of a
    section followed by a colon, the [must_include:] marker, then one quoted
    list item on a line for each required line. *)
Definition line_break : string := String newline "".



(** The test the parser makes for a section header. *)
Definition is_header (raw : string) : bool :=
  let line := rstrip_by is_line_end raw in
  nonempty line && negb (startswith line " ") && endswith_char line ":".

(** An entry of a parsed whitelist: a name, and a non-empty list of non-empty
    items under [must_include]. *)
Definition whitelist_entry (kv : string * json) : Prop :=
  fst kv <> ""
  /\ exists items, snd kv = JDict [("must_include", JList (map JStr items))]
                   /\ items <> []
                   /\ Forall (fun item => item <> "") items.

(** What the loop keeps true of its state. *)
Definition parser_state_ok (st : parser_state) : Prop :=
  NoDup (keys (parsed_data st))
  /\ Forall whitelist_entry (parsed_data st)
  /\ Forall (fun item => item <> "") (current_items st).



(* ================================================================== *)
(** * Properties *)

(** ** Strings *)

Lemma append_cancel_l (a x y : string) : a ++ x = a ++ y -> x = y.
Proof.
  induction a as [|c a IH]; simpl; intros H.
  - exact H.
  - injection H as H. auto.
Qed.

Lemma list_ascii_of_append (x y : string) :
  list_ascii_of_string (x ++ y)
  = (list_ascii_of_string x ++ list_ascii_of_string y)%list.
Proof.
  induction x as [|c x IH]; simpl; [reflexivity | now rewrite IH].
Qed.

Lemma append_cancel_r (a x y : string) : x ++ a = y ++ a -> x = y.
Proof.
  intros H.
  apply (f_equal list_ascii_of_string) in H.
  rewrite !list_ascii_of_append in H.
  apply app_inv_tail in H.
  rewrite <- (string_of_list_ascii_of_string x), <- (string_of_list_ascii_of_string y).
  now rewrite H.
Qed.

Lemma missing_message_inj (h a b : string) :
  missing_message a h = missing_message b h -> a = b.
Proof.
  unfold missing_message. intros H.
  apply append_cancel_l in H.
  now apply append_cancel_r in H.
Qed.

Lemma additional_message_inj (h a b : string) :
  additional_message a h = additional_message b h -> a = b.
Proof.
  unfold additional_message. intros H.
  apply append_cancel_l in H.
  now apply append_cancel_r in H.
Qed.

Lemma in_list_In (s : string) (l : list string) : in_list s l = true <-> In s l.
Proof.
  unfold in_list. rewrite existsb_exists. split.
  - intros [x [Hx E]]. apply String.eqb_eq in E. now subst.
  - intros H. exists s. split; [exact H | apply String.eqb_refl].
Qed.

Lemma in_list_false (s : string) (l : list string) :
  in_list s l = false <-> ~ In s l.
Proof.
  rewrite <- in_list_In. destruct (in_list s l); split; congruence.
Qed.

(** ** The comparator on lists of strings *)

Lemma normalize_str (s : string) : normalize (JStr s) = Return (normalized s).
Proof. reflexivity. Qed.

Lemma mapM_normalize_strs (l : list string) :
  mapM normalize (map JStr l) = Return (map normalized l).
Proof.
  induction l as [|s l IH]; simpl; [reflexivity|].
  rewrite IH. reflexivity.
Qed.

Lemma normalize_raises (v : json) : normalize v = Raise <-> ~ is_str v.
Proof.
  destruct v; simpl; split; intros H; try reflexivity; try discriminate;
    try (intros [s E]; discriminate).
  exfalso. apply H. now exists s.
Qed.

Lemma all_strs (l : list json) :
  Forall is_str l -> exists ss, l = map JStr ss.
Proof.
  induction 1 as [|v l [s ->] _ [ss ->]].
  - now exists [].
  - now exists (s :: ss).
Qed.

Lemma mapM_normalize_raises (l : list json) :
  ~ Forall is_str l -> mapM normalize l = Raise.
Proof.
  induction l as [|v l IH]; intros H.
  - exfalso. apply H. constructor.
  - simpl. destruct (normalize v) eqn:E; [|reflexivity]. simpl.
    rewrite IH; [reflexivity|].
    intros Hl. apply H. constructor; [|exact Hl].
    destruct v; try discriminate. now exists s.
Qed.

Lemma missing_loop_strs (output_normalized : list string) (h : string)
      (whitelist_config : list string) :
  missing_loop output_normalized h (map JStr whitelist_config)
  = Return (map (fun T => missing_message T h)
                (filter (is_missing output_normalized) whitelist_config)).
Proof.
  induction whitelist_config as [|T wl IH]; simpl; [reflexivity|].
  rewrite IH. simpl. unfold is_missing. fold (normalized T).
  destruct (has_placeholder (normalized T)); simpl; [reflexivity|].
  destruct (in_list (normalized T) output_normalized); reflexivity.
Qed.

Section ComparatorFacts.

Variable re_match : string -> string -> re_outcome.

Lemma is_dynamic_spec (whitelist_normalized : list string) (current : string) :
  is_dynamic re_match whitelist_normalized current = true
  <-> exists w, In w whitelist_normalized
                /\ has_placeholder w = true
                /\ re_match (placeholder_pattern w) current = ReMatch.
Proof.
  induction whitelist_normalized as [|w wl IH]; simpl.
  - split; [discriminate | intros [w [[] _]]].
  - destruct (has_placeholder w) eqn:Hp.
    + destruct (re_match (placeholder_pattern w) current) eqn:Hm.
      * split; [intros _; exists w; auto | reflexivity].
      * rewrite IH. split.
        -- intros [w' [Hin H]]. exists w'. auto.
        -- intros [w' [[<- | Hin] [Hp' Hm']]]; [congruence | exists w'; auto].
      * rewrite IH. split.
        -- intros [w' [Hin H]]. exists w'. auto.
        -- intros [w' [[<- | Hin] [Hp' Hm']]]; [congruence | exists w'; auto].
    + rewrite IH. split.
      * intros [w' [Hin H]]. exists w'. auto.
      * intros [w' [[<- | Hin] [Hp' Hm']]]; [congruence | exists w'; auto].
Qed.

Lemma additional_loop_strs (whitelist_normalized : list string) (h : string)
      (output_config : list string) :
  additional_loop re_match whitelist_normalized h (map JStr output_config)
  = Return (map (fun L => additional_message L h)
                (filter (is_additional re_match whitelist_normalized) output_config)).
Proof.
  induction output_config as [|L out IH]; simpl; [reflexivity|].
  rewrite IH. simpl. unfold is_additional. fold (normalized L).
  destruct (is_boilerplate (normalized L)); simpl; [reflexivity|].
  destruct (in_list (normalized L) whitelist_normalized); simpl; [reflexivity|].
  destruct (is_dynamic re_match whitelist_normalized (normalized L)); reflexivity.
Qed.

Lemma compare_configurations_strs (out wl : list string) (h sec : string) :
  compare_configurations re_match (map JStr out) (map JStr wl) h sec
  = (map (fun T => missing_message T h) (filter (is_missing (map normalized out)) wl),
     map (fun L => additional_message L h)
         (filter (is_additional re_match (map normalized wl)) out)).
Proof.
  unfold compare_configurations, compare_configurations_body.
  rewrite !mapM_normalize_strs. simpl.
  rewrite missing_loop_strs. simpl.
  rewrite additional_loop_strs. reflexivity.
Qed.

Lemma count_occ_messages (f : string -> string) (p : string -> bool)
      (l : list string) (x : string) :
  (forall a b, f a = f b -> a = b) ->
  count_occ string_dec (map f (filter p l)) (f x)
  = if p x then count_occ string_dec l x else 0.
Proof.
  intros Hinj. induction l as [|a l IH]; simpl.
  - now destruct (p x).
  - destruct (string_dec a x) as [->|Hne].
    + destruct (p x) eqn:Hp; simpl.
      * destruct (string_dec (f x) (f x)); [|congruence].
        rewrite IH. reflexivity.
      * rewrite IH. reflexivity.
    + destruct (p a) eqn:Hpa; simpl.
      * destruct (string_dec (f a) (f x)) as [E|_].
        -- apply Hinj in E. congruence.
        -- exact IH.
      * exact IH.
Qed.

(** C2 (amended). A required template whose normalized form has no bracket
    placeholder and is absent from the normalized current lines is reported
    as ["missing config: T:hostname"] exactly as many times as it is listed
    among the required templates (once when it is listed once); a template
    whose normalized form has both ['['] and [']'] is never reported. *)
Theorem missing_detection (out wl : list string) (h sec T : string) :
  (has_placeholder (normalized T) = false ->
   ~ In (normalized T) (map normalized out) ->
   count_occ string_dec
             (fst (compare_configurations re_match (map JStr out) (map JStr wl) h sec))
             ("missing config: " ++ T ++ ":" ++ h)
   = count_occ string_dec wl T)
  /\
  (has_placeholder (normalized T) = true ->
   ~ In ("missing config: " ++ T ++ ":" ++ h)
        (fst (compare_configurations re_match (map JStr out) (map JStr wl) h sec))).
Proof.
  change ("missing config: " ++ T ++ ":" ++ h) with (missing_message T h).
  rewrite compare_configurations_strs. cbn [fst].
  split.
  - intros Hp Habs.
    rewrite (count_occ_messages (fun T => missing_message T h)
                                (is_missing (map normalized out)) wl T
                                (missing_message_inj h)).
    unfold is_missing. rewrite Hp.
    apply in_list_false in Habs. rewrite Habs. reflexivity.
  - intros Hp Hin.
    apply in_map_iff in Hin. destruct Hin as [T' [E Hf]].
    apply missing_message_inj in E. subst T'.
    apply filter_In in Hf. destruct Hf as [_ Hf].
    unfold is_missing in Hf. rewrite Hp in Hf. discriminate.
Qed.

Lemma additional_iff (out wl : list string) (h sec L : string) :
  In (additional_message L h)
     (snd (compare_configurations re_match (map JStr out) (map JStr wl) h sec))
  <-> In L out /\ is_additional re_match (map normalized wl) L = true.
Proof.
  rewrite compare_configurations_strs. cbn [snd].
  rewrite in_map_iff. split.
  - intros [L' [E Hf]]. apply additional_message_inj in E. subst L'.
    now apply filter_In in Hf.
  - intros H. exists L. split; [reflexivity | now apply filter_In].
Qed.

(** C3. A current line whose normalized form is matched (by [re.match], so at
    its start) by the pattern of a template having both brackets is never in
    the extra result.  Templates without both brackets are no wildcards: when
    the pattern of no template with both brackets matches, a current line
    that is neither boilerplate nor equal to a template is in the extra
    result, whatever the matcher would answer on the other templates. *)
Theorem extra_suppression (out wl : list string) (h sec L : string) :
  ((exists w, In w wl
              /\ has_placeholder (normalized w) = true
              /\ re_match (placeholder_pattern (normalized w)) (normalized L) = ReMatch) ->
   ~ In ("additional config: " ++ L ++ ":" ++ h)
        (snd (compare_configurations re_match (map JStr out) (map JStr wl) h sec)))
  /\
  ((forall w, In w wl ->
              has_placeholder (normalized w) = true ->
              re_match (placeholder_pattern (normalized w)) (normalized L) <> ReMatch) ->
   In L out ->
   is_boilerplate (normalized L) = false ->
   ~ In (normalized L) (map normalized wl) ->
   In ("additional config: " ++ L ++ ":" ++ h)
      (snd (compare_configurations re_match (map JStr out) (map JStr wl) h sec))).
Proof.
  change ("additional config: " ++ L ++ ":" ++ h) with (additional_message L h).
  rewrite additional_iff. split.
  - intros [w [Hw [Hp Hm]]] [_ Ha].
    unfold is_additional in Ha.
    assert (Hd : is_dynamic re_match (map normalized wl) (normalized L) = true).
    { apply is_dynamic_spec. exists (normalized w).
      split; [now apply in_map | auto]. }
    rewrite Hd in Ha. rewrite andb_false_r in Ha. discriminate.
  - intros Hnone HL Hb Hne. split; [exact HL|].
    unfold is_additional. rewrite Hb.
    apply in_list_false in Hne. rewrite Hne. simpl.
    destruct (is_dynamic re_match (map normalized wl) (normalized L)) eqn:Hd;
      [|reflexivity].
    apply is_dynamic_spec in Hd. destruct Hd as [w' [Hin [Hp Hm]]].
    apply in_map_iff in Hin. destruct Hin as [w [<- Hw]].
    exfalso. exact (Hnone w Hw Hp Hm).
Qed.

(** C5. A current line whose normalized form contains ["version"], or one of
    the other three boilerplate substrings, is never in the extra result,
    whatever the whitelist holds. *)
Theorem boilerplate_suppression (out wl : list string) (h sec L : string) :
  contains "version" (normalized L) = true
  \/ contains "building configuration" (normalized L) = true
  \/ contains "current configuration" (normalized L) = true
  \/ contains "service timestamps" (normalized L) = true ->
  ~ In ("additional config: " ++ L ++ ":" ++ h)
       (snd (compare_configurations re_match (map JStr out) (map JStr wl) h sec)).
Proof.
  intros Hc.
  change ("additional config: " ++ L ++ ":" ++ h) with (additional_message L h).
  rewrite additional_iff. intros [_ Ha].
  unfold is_additional in Ha.
  assert (Hb : is_boilerplate (normalized L) = true).
  { unfold is_boilerplate, skip_patterns. simpl.
    destruct Hc as [H | [H | [H | H]]]; rewrite H;
      rewrite ?orb_true_r; reflexivity. }
  rewrite Hb in Ha. discriminate.
Qed.

End ComparatorFacts.

(** ** Faults of the comparator *)

Lemma strs_or_not (l : list json) :
  (exists ss, l = map JStr ss) \/ ~ Forall is_str l.
Proof.
  induction l as [|v l IH].
  - left. now exists [].
  - destruct v as [| b | n | s | l' | d];
      try (right; intros H; inversion H as [|? ? [s' E] ?]; discriminate).
    destruct IH as [[ss ->] | Hn].
    + left. now exists (s :: ss).
    + right. intros H. inversion H. auto.
Qed.

Lemma strs_are_strs (ss : list string) : Forall is_str (map JStr ss).
Proof.
  induction ss; simpl; constructor; auto. now eexists.
Qed.

Section FaultFacts.

Variable re_match : string -> string -> re_outcome.

(** C8. The comparator returns a pair on every input.  Its body raises
    exactly when one of the two lists holds a value that is no string (an
    error of the pattern engine never leaves the inner [except]), and then
    the pair is [([], [])]. *)
Theorem comparator_never_raises (out wl : list json) (h sec : string) :
  (compare_configurations_body re_match out wl h sec = Raise ->
   compare_configurations re_match out wl h sec = ([], []))
  /\
  (compare_configurations_body re_match out wl h sec = Raise
   <-> ~ (Forall is_str out /\ Forall is_str wl))
  /\
  (Forall is_str out -> Forall is_str wl ->
   compare_configurations_body re_match out wl h sec
   = Return (compare_configurations re_match out wl h sec)).
Proof.
  split; [|split].
  - unfold compare_configurations. now intros ->.
  - destruct (strs_or_not out) as [[os ->] | Ho].
    + destruct (strs_or_not wl) as [[ws ->] | Hw].
      * split.
        -- unfold compare_configurations_body.
           rewrite !mapM_normalize_strs. simpl.
           rewrite missing_loop_strs. simpl.
           rewrite additional_loop_strs. discriminate.
        -- intros H. exfalso. apply H. split; apply strs_are_strs.
      * split; [intros _ [_ H]; auto|]. intros _.
        unfold compare_configurations_body.
        rewrite mapM_normalize_strs. simpl.
        now rewrite (mapM_normalize_raises wl Hw).
    + split; [intros _ [H _]; auto|]. intros _.
      unfold compare_configurations_body.
      now rewrite (mapM_normalize_raises out Ho).
  - intros Ho Hw.
    destruct (all_strs out Ho) as [os ->]. destruct (all_strs wl Hw) as [ws ->].
    unfold compare_configurations, compare_configurations_body.
    rewrite !mapM_normalize_strs. simpl.
    rewrite missing_loop_strs. simpl.
    rewrite additional_loop_strs. reflexivity.
Qed.

(** ** The shape of the findings *)

Lemma missing_loop_shape (on : list string) (h : string) (wl : list json) :
  forall l, missing_loop on h wl = Return l -> Forall (is_missing_finding h) l.
Proof.
  induction wl as [|v wl IH]; simpl; intros l H.
  - injection H as <-. constructor.
  - destruct (normalize v) as [n|]; simpl in H; [|discriminate].
    destruct (missing_loop on h wl) as [later|]; simpl in H; [|discriminate].
    specialize (IH later eq_refl).
    destruct (has_placeholder n); [injection H as <-; exact IH|].
    destruct (in_list n on); simpl in H; injection H as <-; [exact IH|].
    constructor; [|exact IH]. now exists (py_str v).
Qed.

Lemma additional_loop_shape (wn : list string) (h : string) (out : list json) :
  forall l, additional_loop re_match wn h out = Return l ->
            Forall (is_additional_finding h) l.
Proof.
  induction out as [|v out IH]; simpl; intros l H.
  - injection H as <-. constructor.
  - destruct (normalize v) as [n|]; simpl in H; [|discriminate].
    destruct (additional_loop re_match wn h out) as [later|]; simpl in H;
      [|discriminate].
    specialize (IH later eq_refl).
    destruct (is_boilerplate n); [injection H as <-; exact IH|].
    destruct (in_list n wn); simpl in H; [injection H as <-; exact IH|].
    destruct (is_dynamic re_match wn n); simpl in H; injection H as <-;
      [exact IH|].
    constructor; [|exact IH]. now exists (py_str v).
Qed.

Lemma compare_configurations_shape (out wl : list json) (h sec : string) :
  Forall (is_missing_finding h) (fst (compare_configurations re_match out wl h sec))
  /\ Forall (is_additional_finding h)
            (snd (compare_configurations re_match out wl h sec)).
Proof.
  unfold compare_configurations, compare_configurations_body.
  destruct (mapM normalize out) as [on|]; simpl; [|split; constructor].
  destruct (mapM normalize wl) as [wn|]; simpl; [|split; constructor].
  destruct (missing_loop on h wl) as [m|] eqn:Hm; simpl; [|split; constructor].
  destruct (additional_loop re_match wn h out) as [a|] eqn:Ha; simpl;
    [|split; constructor].
  split; [eapply missing_loop_shape | eapply additional_loop_shape]; eauto.
Qed.

End FaultFacts.

(** ** The section router *)

Lemma lookup_keys {V : Type} (k : string) (d : list (string * V)) :
  In k (keys d) -> exists v, lookup k d = Some v.
Proof.
  induction d as [|[k' v'] d IH]; simpl; [intros []|].
  intros H. destruct (String.eqb k k') eqn:E; [now exists v'|].
  destruct H as [<- | H]; [|auto].
  rewrite String.eqb_refl in E. discriminate.
Qed.

Lemma scan_keys_returns (d : dict) (mapped : string) (ks : list string) :
  incl ks (keys d) -> exists v, scan_keys (JDict d) mapped ks = Return v.
Proof.
  induction ks as [|k ks IH]; simpl; intros H.
  - now exists JNull.
  - destruct (String.eqb (lower k) (lower mapped)).
    + destruct (lookup_keys k d (H k (or_introl eq_refl))) as [v ->].
      now exists v.
    + apply IH. intros x Hx. apply H. now right.
Qed.

(** A fault while a section is resolved is the device data being no
    mapping; it then strikes every section. *)
Lemma resolve_output_section_raises (device_data : json) (section_name : string) :
  resolve_output_section device_data section_name = Raise
  <-> isinstance_dict device_data = false.
Proof.
  unfold resolve_output_section.
  generalize (match lookup section_name section_mapping with
              | Some m => m
              | None => section_name
              end).
  intros mapped.
  destruct device_data as [| b | n | s | l | d];
    cbn [py_in py_getitem py_keys bind isinstance_dict];
    try (split; reflexivity).
  - destruct (contains mapped s); split; reflexivity.
  - destruct (existsb _ l); split; reflexivity.
  - destruct (lookup mapped d) as [v|] eqn:E.
    + split; discriminate.
    + destruct (scan_keys_returns d mapped (keys d) (incl_refl _)) as [v ->].
      split; discriminate.
Qed.

Section RouterFacts.

Variable re_match : string -> string -> re_outcome.

Lemma section_findings_raises (host : string) (device_data : json)
      (section_name : string) (required : list string) :
  section_findings re_match host device_data section_name required = Raise
  <-> isinstance_dict device_data = false.
Proof.
  rewrite <- (resolve_output_section_raises device_data section_name).
  unfold section_findings.
  destruct (resolve_output_section device_data section_name); simpl;
    split; congruence.
Qed.

Lemma section_status_OK (missing extra : list string) :
  section_status missing extra = OK <-> missing = [] /\ extra = [].
Proof.
  destruct missing, extra; simpl; split; try tauto; try discriminate;
    intros [? ?]; discriminate.
Qed.

Lemma section_status_to_check (missing extra : list string) :
  section_status missing extra <> OK -> section_status missing extra = to_check.
Proof. destruct missing, extra; simpl; congruence. Qed.

Lemma section_findings_shape (host : string) (device_data : json)
      (section_name : string) (required : list string) (m a : list string) :
  section_findings re_match host device_data section_name required = Return (m, a) ->
  Forall (is_finding host) (m ++ a).
Proof.
  unfold section_findings.
  destruct (resolve_output_section device_data section_name) as [os|]; simpl;
    [|discriminate].
  intros H. injection H as H.
  match type of H with
  | compare_configurations _ ?o ?w _ _ = _ =>
      pose proof (compare_configurations_shape re_match o w host section_name) as [Hm Ha]
  end.
  rewrite H in Hm, Ha. simpl in Hm, Ha.
  apply Forall_app. split.
  - eapply Forall_impl; [|exact Hm]. intros f Hf. now left.
  - eapply Forall_impl; [|exact Ha]. intros f Hf. now right.
Qed.

Lemma section_loop_spec (host : string) (device_data : json)
      (items : list (string * json)) :
  forall summary_data issues_list,
  exists rows findings,
    section_loop re_match host device_data items summary_data issues_list
    = ((summary_data ++ rows)%list, (issues_list ++ findings)%list)
    /\ Forall2 (row_of_section re_match host device_data) (filter has_requirements items) rows
    /\ Forall (is_finding host) findings.
Proof.
  induction items as [|[name ws] items IH]; intros summary_data issues_list.
  - exists [], []. simpl. rewrite !app_nil_r. repeat split; constructor.
  - simpl. unfold section_body, has_requirements. simpl.
    destruct (parse_whitelist_section ws) as [|r rs] eqn:Hreq.
    + apply IH.
    + destruct (section_findings re_match host device_data name (r :: rs))
        as [[m a]|] eqn:Hf; simpl.
      * destruct (IH (summary_data ++
                      [{| section := name; hostname := host;
                          status := section_status m a;
                          missing_count := List.length m;
                          additional_count := List.length a |}])%list
                     (issues_list ++ (m ++ a))%list)
          as [rows [findings [E [Hrows Hfind]]]].
        eexists (_ :: rows), ((m ++ a) ++ findings)%list.
        split; [|split].
        -- rewrite E. rewrite <- !app_assoc. reflexivity.
        -- constructor; [|exact Hrows].
           unfold row_of_section. simpl. rewrite Hreq, Hf.
           split; [reflexivity | split; [reflexivity|]].
           split; [apply section_status_OK|].
           split; [apply section_status_to_check | split; reflexivity].
        -- apply Forall_app. split; [|exact Hfind].
           eapply section_findings_shape; eauto.
      * destruct (IH (summary_data ++ [error_row name host])%list issues_list)
          as [rows [findings [E [Hrows Hfind]]]].
        exists (error_row name host :: rows), findings.
        split; [|split].
        -- rewrite E. rewrite <- !app_assoc. reflexivity.
        -- constructor; [|exact Hrows].
           unfold row_of_section. simpl. rewrite Hreq, Hf. auto.
        -- exact Hfind.
Qed.

(** C4. For an output document that is a mapping, the summary has one row for
    each whitelist section with a non-empty list of required templates, in
    order.  When the section is processed without a fault, the row has
    status [OK] exactly when the missing and the extra lists are both empty
    and [to_check] otherwise, with the two lengths as counts; when a fault
    occurs, the row has status [error] with both counts 0.  Either way the
    sections that follow get their rows. *)
Theorem status_consistency (od : dict) (whitelist_data : dict) :
  let output_data := JDict od in
  let host := extract_hostname_from_output output_data in
  let device_data :=
    match lookup "data" od with Some data => data | None => JDict [] end in
  Forall2 (row_of_section re_match host device_data)
          (filter has_requirements whitelist_data)
          (fst (process_device_comparison re_match output_data whitelist_data)).
Proof.
  intros output_data host device_data.
  unfold process_device_comparison, process_device_comparison_body.
  simpl. fold output_data. fold host. fold device_data.
  destruct (section_loop_spec host device_data whitelist_data [] [])
    as [rows [findings [E [Hrows _]]]].
  rewrite E. simpl. exact Hrows.
Qed.

(** C9. Every finding the comparator returns is ["missing config: "] or
    ["additional config: "], a body, then [":"] and the hostname it was
    given; every element of the issue list of a run has that form with the
    one hostname extracted from the output document. *)
Theorem finding_format (out wl : list json) (h sec : string)
        (output_data : json) (whitelist_data : dict) (f : string) :
  (In f (fst (compare_configurations re_match out wl h sec)
         ++ snd (compare_configurations re_match out wl h sec))%list ->
   exists body,
     f = "missing config: " ++ body ++ ":" ++ h
     \/ f = "additional config: " ++ body ++ ":" ++ h)
  /\
  (In f (snd (process_device_comparison re_match output_data whitelist_data)) ->
   exists body,
     f = "missing config: " ++ body ++ ":" ++ extract_hostname_from_output output_data
     \/ f = "additional config: " ++ body ++ ":"
            ++ extract_hostname_from_output output_data).
Proof.
  split.
  - intros Hin. apply in_app_or in Hin.
    destruct (compare_configurations_shape re_match out wl h sec) as [Hm Ha].
    rewrite Forall_forall in Hm, Ha.
    destruct Hin as [Hin | Hin].
    + destruct (Hm f Hin) as [body ->]. exists body. now left.
    + destruct (Ha f Hin) as [body ->]. exists body. now right.
  - unfold process_device_comparison, process_device_comparison_body.
    destruct (py_get output_data "data" (JDict [])) as [device_data|]; simpl;
      [|intros []].
    destruct (section_loop_spec (extract_hostname_from_output output_data)
                                device_data whitelist_data [] [])
      as [rows [findings [E [_ Hfind]]]].
    rewrite E. simpl. intros Hin.
    rewrite Forall_forall in Hfind.
    destruct (Hfind f Hin) as [[body ->] | [body ->]]; exists body; auto.
Qed.

End RouterFacts.

(** ** The output section normalizer *)

Lemma vty_line_group_strs (g : list string) :
  vty_line_group (JList (map JStr g)) = filter keep_line (map strip g).
Proof.
  unfold vty_line_group. rewrite map_map. reflexivity.
Qed.

Lemma flat_map_vty_groups (groups : list (list string)) :
  flat_map vty_line_group (map (fun g => JList (map JStr g)) groups)
  = filter keep_line (map strip (concat groups)).
Proof.
  induction groups as [|g groups IH]; simpl; [reflexivity|].
  rewrite map_app, filter_app, <- IH.
  f_equal. rewrite map_map. reflexivity.
Qed.

(** C6. For the section named [vty] and a mapping whose [stdout_lines] is a
    list of groups of strings, the normalizer gives the lines of all groups
    in order, each trimmed, without those that are empty or start with
    ['!']; and the payload of Scenario C gives [line1], [line2]. *)
Theorem vty_envelope_flattened (d : dict) (groups : list (list string)) :
  (lookup "stdout_lines" d = Some (JList (map (fun g => JList (map JStr g)) groups)) ->
   parse_output_section (JDict d) "vty"
   = filter (fun line => nonempty line && negb (startswith line "!"))
            (map strip (concat groups)))
  /\
  parse_output_section
    (JDict [("stdout_lines", JList [JList [JStr "line1"; JStr "!banner"; JStr "line2"]])])
    "vty"
  = ["line1"; "line2"].
Proof.
  split; [|reflexivity].
  intros H. unfold parse_output_section, parse_output_section_body.
  cbn [try_except String.eqb isinstance_dict andb].
  change (("vty" =? "vty")%string) with true. cbn [andb].
  rewrite H. apply flat_map_vty_groups.
Qed.

(** C10. For a section not named [vty], a payload that is a mapping gives no
    line at all, as an absent payload does; nothing is raised. *)
Theorem non_vty_mapping_empty (d : dict) (section_name : string) :
  section_name <> "vty" ->
  parse_output_section_body (JDict d) section_name = Return []
  /\ parse_output_section (JDict d) section_name = [].
Proof.
  intros Hne. apply String.eqb_neq in Hne.
  unfold parse_output_section, parse_output_section_body.
  rewrite Hne. split; reflexivity.
Qed.

(** ** Hostname extraction *)

Lemma prefix_ci_lower (pat s : string) :
  prefix_ci pat s = true -> prefix pat (lower s) = true.
Proof.
  revert s. induction pat as [|a pat IH]; intros s H.
  - now destruct s.
  - destruct s as [|b s]; simpl in H; [discriminate|].
    apply andb_true_iff in H. destruct H as [Hc Hp].
    apply Ascii.eqb_eq in Hc. simpl.
    destruct (ascii_dec a (lower_char b)); [auto | contradiction].
Qed.

Lemma hostname_at_prefix (s token : string) :
  hostname_at s = Some token -> prefix_ci "hostname" s = true.
Proof.
  unfold hostname_at. destruct (prefix_ci "hostname" s); [reflexivity | discriminate].
Qed.

Lemma contains_cons (sub : string) (c : ascii) (s : string) :
  contains sub (String c s) = prefix sub (String c s) || contains sub s.
Proof. reflexivity. Qed.

Lemma contains_prefix (sub s : string) : prefix sub s = true -> contains sub s = true.
Proof. intros H. destruct s; cbn [contains]; rewrite H; reflexivity. Qed.

(** The test made before the search never hides a match. *)
Lemma hostname_search_contains (line token : string) :
  hostname_search line = Some token -> contains "hostname" (lower line) = true.
Proof.
  induction line as [|c line IH]; intros H.
  - simpl in H. discriminate.
  - cbn [hostname_search] in H.
    destruct (hostname_at (String c line)) as [t|] eqn:Hat.
    + apply contains_prefix, prefix_ci_lower.
      eapply hostname_at_prefix; eauto.
    + cbn [lower]. rewrite contains_cons. rewrite (IH H). apply orb_true_r.
Qed.

Lemma hostname_in_line_search (line : string) :
  hostname_in_line line = hostname_search line.
Proof.
  unfold hostname_in_line.
  destruct (contains "hostname" (lower line)) eqn:Hc; [reflexivity|].
  destruct (hostname_search line) as [t|] eqn:Hs; [|reflexivity].
  apply hostname_search_contains in Hs. congruence.
Qed.

Lemma first_token_app (l1 l2 : list string) :
  first_token (l1 ++ l2)
  = match first_token l1 with
    | Some token => Some token
    | None => first_token l2
    end.
Proof.
  induction l1 as [|l l1 IH]; simpl; [reflexivity|].
  destruct (hostname_search l); [reflexivity | exact IH].
Qed.

Lemma scan_version_first (lines : list json) :
  scan_version lines = first_token (strings_of lines).
Proof.
  induction lines as [|v lines IH]; simpl; [reflexivity|].
  destruct v; simpl; try exact IH.
  rewrite hostname_in_line_search.
  destruct (hostname_search s); [reflexivity | exact IH].
Qed.

Lemma scan_run_config_first (lines : list string) :
  scan_run_config lines = first_token lines.
Proof.
  induction lines as [|l lines IH]; simpl; [reflexivity|].
  rewrite hostname_in_line_search.
  destruct (hostname_search l); [reflexivity | exact IH].
Qed.

Lemma extract_hostname_data_dict (data : dict) :
  try_except
    (from_version <-
       (has_version <- py_in "version" (JDict data) ;;
        if has_version : bool then
          version <- py_getitem (JDict data) "version" ;;
          match version with
          | JList lines => Return (scan_version lines)
          | _ => Return None
          end
        else Return None) ;;
     match from_version with
     | Some token => Return token
     | None =>
         from_run_config <-
           (has_run_config <- py_in "run_config" (JDict data) ;;
            if has_run_config : bool then
              run_config <- py_getitem (JDict data) "run_config" ;;
              match run_config with
              | JStr text => Return (scan_run_config (split_nl text))
              | _ => Return None
              end
            else Return None) ;;
         match from_run_config with
         | Some token => Return token
         | None => Return "Unknown-Device"
         end
     end) "Unknown-Device"
  = match first_token (hostname_lines data) with
    | Some token => token
    | None => "Unknown-Device"
    end.
Proof.
  unfold hostname_lines. rewrite first_token_app.
  cbn [py_in py_getitem bind].
  destruct (lookup "version" data) as [version|]; cbn [bind].
  - assert (Hrc :
      try_except
        (from_run_config <-
           (if match lookup "run_config" data with Some _ => true | None => false end
            then run_config <- match lookup "run_config" data with
                               | Some v => Return v
                               | None => Raise
                               end ;;
                 match run_config with
                 | JStr text => Return (scan_run_config (split_nl text))
                 | _ => Return None
                 end
            else Return None) ;;
         match from_run_config with
         | Some token => Return token
         | None => Return "Unknown-Device"
         end) "Unknown-Device"
      = match first_token match lookup "run_config" data with
                          | Some (JStr text) => split_nl text
                          | _ => []
                          end with
        | Some token => token
        | None => "Unknown-Device"
        end).
    { destruct (lookup "run_config" data) as [rc|]; [|reflexivity].
      destruct rc; try reflexivity.
      cbn [bind]. rewrite scan_run_config_first.
      destruct (first_token (split_nl s)); reflexivity. }
    destruct version; cbn [bind first_token]; try exact Hrc.
    rewrite scan_version_first.
    destruct (first_token (strings_of l)); [reflexivity | exact Hrc].
  - cbn [first_token].
    destruct (lookup "run_config" data) as [rc|]; [|reflexivity].
    destruct rc; try reflexivity.
    cbn [bind]. rewrite scan_run_config_first.
    destruct (first_token (split_nl s)); reflexivity.
Qed.

(** C7. The hostname is the token of the first line having the pattern
    [hostname <token>] (letters compared without case), the lines being those
    of the [version] section when it is a list of strings, then those of the
    [run_config] section when it is one string; when no line has it, or the
    sections or the data are absent, it is ["Unknown-Device"]. *)
Theorem hostname_extraction (output_data : json) :
  extract_hostname_from_output output_data = hostname_spec output_data
  /\ extract_hostname_from_output (JDict [("data", JDict [])]) = "Unknown-Device"
  /\ extract_hostname_from_output
       (JDict [("data", JDict [("version", JList [JStr "Cisco IOS"; JStr "HostName  sw1 up"]);
                               ("run_config", JStr "hostname sw2")])])
     = "sw1".
Proof.
  split; [|split; reflexivity].
  unfold extract_hostname_from_output, extract_hostname_body, hostname_spec.
  destruct output_data as [| b | n | s | l | od]; try reflexivity.
  - cbn [py_in bind]. destruct (contains "data" s); reflexivity.
  - cbn [py_in bind]. destruct (existsb _ l); reflexivity.
  - cbn [py_in py_getitem bind].
    destruct (lookup "data" od) as [data|]; [|reflexivity].
    cbn [bind].
    destruct data as [| b | n | s | l | data]; try reflexivity.
    + cbn [py_in py_getitem bind].
      destruct (contains "version" s); cbn [bind]; [reflexivity|].
      destruct (contains "run_config" s); reflexivity.
    + cbn [py_in py_getitem bind].
      destruct (existsb _ l); cbn [bind]; [reflexivity|].
      destruct (existsb _ l); reflexivity.
    + apply extract_hostname_data_dict.
Qed.

(** ** The compliance score *)

Lemma count_status_total (summary_data : list summary_row) :
  count_status OK summary_data + count_status to_check summary_data
  + count_status error summary_data
  = List.length summary_data.
Proof.
  unfold count_status.
  induction summary_data as [|row rows IH]; [reflexivity|].
  cbn [filter List.length].
  destruct (status row); cbn [List.length]; lia.
Qed.

(** C1 (amended). For a non-empty summary the compliance score of the
    statistics sheet is the number of sections whose status is not
    [to_check] (those with [OK] and those with [error]) divided by the
    number of sections, times 100, floored at 0 and printed rounded; when no
    section has status [error] it is the number of [OK] sections that is
    divided. *)
Theorem compliance_score_counts
        (summary_data : list summary_row) (issues_list : list string) :
  summary_data <> [] ->
  option_map compliance_percent (statistics_sheet summary_data issues_list)
  = Some (format_0f (percentage (count_status OK summary_data
                                 + count_status error summary_data)
                                (List.length summary_data)))
  /\
  (count_status error summary_data = 0 ->
   option_map compliance_percent (statistics_sheet summary_data issues_list)
   = Some (format_0f (percentage (count_status OK summary_data)
                                 (List.length summary_data)))).
Proof.
  intros Hne.
  assert (E : option_map compliance_percent (statistics_sheet summary_data issues_list)
              = Some (format_0f (percentage
                                   (List.length summary_data
                                    - count_status to_check summary_data)
                                   (List.length summary_data)))).
  { destruct summary_data as [|row rows]; [contradiction|]. reflexivity. }
  pose proof (count_status_total summary_data) as Ht.
  split.
  - rewrite E. do 3 f_equal. lia.
  - intros He. rewrite E. do 3 f_equal. lia.
Qed.

(* ================================================================== *)
(** * Further properties of the code *)

(** ** Trimming *)

Lemma lstrip_by_head (p : ascii -> bool) (s : string) :
  lstrip_by p s = EmptyString
  \/ exists c rest, lstrip_by p s = String c rest /\ p c = false.
Proof.
  induction s as [|c s IH]; simpl; [now left|].
  destruct (p c) eqn:E; [exact IH|].
  right. now exists c, s.
Qed.

Lemma rstrip_by_head (p : ascii -> bool) (c : ascii) (s : string) :
  p c = false -> exists rest, rstrip_by p (String c s) = String c rest.
Proof.
  intros E. cbn [rstrip_by]. destruct (rstrip_by p s) as [|b r].
  - rewrite E. now exists EmptyString.
  - now exists (String b r).
Qed.

Lemma rstrip_by_idem (p : ascii -> bool) (s : string) :
  rstrip_by p (rstrip_by p s) = rstrip_by p s.
Proof.
  induction s as [|c s IH]; [reflexivity|].
  cbn [rstrip_by]. destruct (rstrip_by p s) as [|b r] eqn:E.
  - destruct (p c) eqn:Ec; [reflexivity|].
    cbn [rstrip_by]. now rewrite Ec.
  - cbn [rstrip_by] in IH |- *. 
    destruct (match rstrip_by p r with
              | EmptyString => if p b then EmptyString else String b EmptyString
              | String a0 s0 => String b (String a0 s0)
              end) eqn:E2; [discriminate | now rewrite <- IH].
Qed.

Lemma rstrip_by_last (p : ascii -> bool) (s : string) (c : ascii) :
  endswith_char (rstrip_by p s) c = true -> p c = false.
Proof.
  induction s as [|a s IH]; [discriminate|].
  cbn [rstrip_by]. destruct (rstrip_by p s) as [|b r].
  - destruct (p a) eqn:Ea; [discriminate|].
    cbn [endswith_char]. intros H. apply Ascii.eqb_eq in H. now subst.
  - intros H. apply IH. exact H.
Qed.

Lemma strip_by_idem (p : ascii -> bool) (s : string) :
  strip_by p (strip_by p s) = strip_by p s.
Proof.
  unfold strip_by.
  destruct (lstrip_by_head p s) as [E | [c [rest [E Ec]]]]; rewrite E.
  - reflexivity.
  - destruct (rstrip_by_head p c rest Ec) as [r Er]. rewrite Er.
    cbn [lstrip_by]. rewrite Ec. rewrite <- Er. apply rstrip_by_idem.
Qed.

Lemma strip_by_first (p : ascii -> bool) (s : string) (c : ascii) (rest : string) :
  strip_by p s = String c rest -> p c = false.
Proof.
  unfold strip_by.
  destruct (lstrip_by_head p s) as [E | [a [r [E Ea]]]]; rewrite E.
  - discriminate.
  - destruct (rstrip_by_head p a r Ea) as [r' Er]. rewrite Er.
    intros H. injection H as <- _. exact Ea.
Qed.

Lemma trim_whitespace_strip (v : json) : trim_whitespace v = strip (py_str v).
Proof. destruct v; reflexivity. Qed.

(** X1. Trimming a trimmed text changes nothing, and a trimmed text neither
    starts nor ends with a white-space character. *)
Theorem trim_whitespace_idempotent (text : json) :
  trim_whitespace (JStr (trim_whitespace text)) = trim_whitespace text
  /\ (forall c rest, trim_whitespace text = String c rest -> is_space c = false)
  /\ (forall c, endswith_char (trim_whitespace text) c = true -> is_space c = false).
Proof.
  change (trim_whitespace (JStr (trim_whitespace text)))
    with (strip (trim_whitespace text)).
  rewrite trim_whitespace_strip. unfold strip.
  split; [apply strip_by_idem | split].
  - intros c rest. apply strip_by_first.
  - intros c. unfold strip_by. apply rstrip_by_last.
Qed.

Lemma trim_whitespace_idempotent_witness :
  is_space "a"%char = false /\ is_space "b"%char = false.
Proof.
  split.
  - apply (proj1 (proj2 (trim_whitespace_idempotent (JStr "  a b  "))) "a"%char " b").
    reflexivity.
  - apply (proj2 (proj2 (trim_whitespace_idempotent (JStr "  a b  "))) "b"%char).
    reflexivity.
Defined.

(** ** The lines the normalizer emits *)

Lemma Forall_flat_map {A B : Type} (P : B -> Prop) (f : A -> list B) (l : list A) :
  (forall x, Forall P (f x)) -> Forall P (flat_map f l).
Proof.
  intros H. induction l as [|x l IH]; simpl; [constructor|].
  apply Forall_app. auto.
Qed.

Lemma config_lines_filter_strip (ls : list string) :
  Forall config_line (filter keep_line (map strip ls)).
Proof.
  apply Forall_forall. intros l Hl. apply filter_In in Hl.
  destruct Hl as [Hin Hk]. split; [exact Hk|].
  apply in_map_iff in Hin. destruct Hin as [x [<- _]].
  apply strip_by_idem.
Qed.

Lemma config_lines_filter_trim (vs : list json) :
  Forall config_line (filter keep_line (map trim_whitespace vs)).
Proof.
  rewrite (map_ext trim_whitespace (fun v => strip (py_str v)) trim_whitespace_strip).
  rewrite <- (map_map py_str strip). apply config_lines_filter_strip.
Qed.

Lemma config_lines_kept (s : string) : Forall config_line (kept (strip s)).
Proof.
  unfold kept. destruct (keep_line (strip s)) eqn:E; constructor; [|constructor].
  split; [exact E | apply strip_by_idem].
Qed.

Lemma parse_output_section_config_lines (section_data : json) (section_name : string) :
  Forall config_line (parse_output_section section_data section_name).
Proof.
  unfold parse_output_section, parse_output_section_body. cbn [try_except].
  destruct (String.eqb section_name "vty" && isinstance_dict section_data).
  - destruct section_data as [| b | n | s | l | d]; try constructor.
    destruct (lookup "stdout_lines" d) as [sl|].
    + destruct sl as [| b | n | s | groups | d']; try constructor.
      apply Forall_flat_map. intros g. unfold vty_line_group.
      destruct g; try constructor. apply config_lines_filter_trim.
    + destruct (lookup "stdout" d) as [so|]; [|constructor].
      destruct so as [| b | n | s | items | d']; try constructor.
      apply Forall_flat_map. intros it. unfold vty_stdout_item.
      destruct it; try constructor. apply config_lines_filter_strip.
  - destruct section_data as [| b | n | s | l | d]; try constructor.
    + apply config_lines_filter_strip.
    + apply Forall_flat_map. intros it. unfold list_item.
      destruct it; try constructor; apply config_lines_kept.
Qed.

(** X2. Whatever the payload and the section name, every line the normalizer
    gives is non-empty, does not start with ['!'] and carries no white
    space at either end. *)
Theorem normalizer_lines_clean (section_data : json) (section_name line : string) :
  In line (parse_output_section section_data section_name) ->
  line <> ""
  /\ startswith line "!" = false
  /\ strip line = line.
Proof.
  intros Hin.
  pose proof (parse_output_section_config_lines section_data section_name) as H.
  rewrite Forall_forall in H. destruct (H line Hin) as [Hk Hs].
  unfold keep_line in Hk. apply andb_true_iff in Hk. destruct Hk as [Hn Hb].
  split; [|split].
  - intros ->. discriminate.
  - now apply negb_true_iff in Hb.
  - exact Hs.
Qed.

Lemma normalizer_lines_clean_witness :
  "permit 10.0.0.0 0.0.0.255" <> ""
  /\ startswith "permit 10.0.0.0 0.0.0.255" "!" = false
  /\ strip "permit 10.0.0.0 0.0.0.255" = "permit 10.0.0.0 0.0.0.255".
Proof.
  apply (normalizer_lines_clean
           (JList [JStr "! acl"; JList [JStr "permit"; JStr "10.0.0.0"; JStr "0.0.0.255"]])
           "vtyaccess_acl").
  vm_compute. now left.
Defined.

Lemma flat_map_list_item_strs (ls : list string) :
  flat_map list_item (map JStr ls) = filter keep_line (map strip ls).
Proof.
  induction ls as [|l ls IH]; simpl; [reflexivity|].
  rewrite IH. unfold kept. destruct (keep_line (strip l)); reflexivity.
Qed.

Lemma filter_strip_config_lines (ls : list string) :
  Forall config_line ls -> filter keep_line (map strip ls) = ls.
Proof.
  induction 1 as [|l ls [Hk Hs] _ IH]; simpl; [reflexivity|].
  rewrite Hs, Hk, IH. reflexivity.
Qed.

(** X3. Normalizing is idempotent: the lines of a section, given back as a
    flat list payload under any section name, come out unchanged. *)
Theorem normalizer_idempotent (section_data : json) (section_name again : string) :
  parse_output_section
    (JList (map JStr (parse_output_section section_data section_name))) again
  = parse_output_section section_data section_name.
Proof.
  pose proof (parse_output_section_config_lines section_data section_name) as H.
  set (ls := parse_output_section section_data section_name) in *.
  unfold parse_output_section at 1, parse_output_section_body.
  cbn [try_except isinstance_dict]. rewrite andb_false_r.
  rewrite flat_map_list_item_strs. now apply filter_strip_config_lines.
Qed.

(** X4. A payload that is one string gives the lines that the list of its
    pieces between line breaks gives. *)
Theorem string_payload_as_list (text section_name : string) :
  parse_output_section (JStr text) section_name
  = parse_output_section (JList (map JStr (split_nl text))) section_name.
Proof.
  unfold parse_output_section, parse_output_section_body.
  cbn [try_except isinstance_dict]. rewrite andb_false_r.
  rewrite flat_map_list_item_strs. reflexivity.
Qed.

Lemma flat_map_vty_stdout_strs (texts : list string) (section_name : string) :
  flat_map vty_stdout_item (map JStr texts)
  = flat_map (fun text => parse_output_section (JStr text) section_name) texts.
Proof.
  induction texts as [|t texts IH]; simpl; [reflexivity|].
  rewrite IH. f_equal.
  unfold parse_output_section, parse_output_section_body.
  cbn [try_except isinstance_dict]. now rewrite andb_false_r.
Qed.

(** X5. For the section named [vty], [stdout] is read only when the mapping
    has no [stdout_lines] key: then a list of strings under [stdout] gives
    the lines of each string in turn; a [stdout_lines] that is present but
    no list gives no line, whatever [stdout] holds. *)
Theorem vty_stdout_fallback (d : dict) (texts : list string) (other : json) :
  (lookup "stdout_lines" d = None ->
   lookup "stdout" d = Some (JList (map JStr texts)) ->
   parse_output_section (JDict d) "vty"
   = flat_map (fun text => parse_output_section (JStr text) "vty") texts)
  /\
  (lookup "stdout_lines" d = Some other ->
   isinstance_list other = false ->
   parse_output_section (JDict d) "vty" = []).
Proof.
  unfold parse_output_section at 1 3, parse_output_section_body.
  cbn [try_except isinstance_dict].
  change (("vty" =? "vty")%string) with true. cbn [andb].
  split.
  - intros -> ->. apply flat_map_vty_stdout_strs.
  - intros -> Hl. destruct other; try reflexivity. discriminate.
Qed.

Lemma vty_stdout_fallback_witness :
  parse_output_section
    (JDict [("stdout", JList [JStr "line vty 0 4
 transport input ssh
!"; JStr "line vty 5 15"])]) "vty"
  = ["line vty 0 4"; "transport input ssh"; "line vty 5 15"]
  /\
  parse_output_section
    (JDict [("stdout_lines", JStr "line vty 0 4");
            ("stdout", JList [JStr "line vty 0 4"])]) "vty"
  = [].
Proof.
  split.
  - refine (eq_trans
              (proj1 (vty_stdout_fallback
                        [("stdout", JList [JStr "line vty 0 4
 transport input ssh
!"; JStr "line vty 5 15"])]
                        ["line vty 0 4
 transport input ssh
!"; "line vty 5 15"] JNull) _ _) _); reflexivity.
  - apply (proj2 (vty_stdout_fallback
                    [("stdout_lines", JStr "line vty 0 4");
                     ("stdout", JList [JStr "line vty 0 4"])]
                    [] (JStr "line vty 0 4"))); reflexivity.
Defined.

(** ** More on the comparator *)

Lemma filter_nil_iff {A : Type} (p : A -> bool) (l : list A) :
  filter p l = [] <-> forall x, In x l -> p x = false.
Proof.
  induction l as [|a l IH]; simpl.
  - split; [intros _ x [] | reflexivity].
  - destruct (p a) eqn:E.
    + split; [discriminate|]. intros H. specialize (H a (or_introl eq_refl)). congruence.
    + rewrite IH. split.
      * intros H x [<- | Hx]; auto.
      * intros H x Hx. apply H. now right.
Qed.

Lemma map_nil_iff {A B : Type} (f : A -> B) (l : list A) : map f l = [] <-> l = [].
Proof. destruct l; simpl; split; congruence. Qed.

Lemma is_missing_false (output_normalized : list string) (T : string) :
  is_missing output_normalized T = false
  <-> has_placeholder (normalized T) = true \/ In (normalized T) output_normalized.
Proof.
  unfold is_missing. rewrite <- in_list_In.
  destruct (has_placeholder (normalized T)), (in_list (normalized T) output_normalized);
    simpl; split; auto; intros [H | H]; congruence.
Qed.

Lemma missing_loop_length (on : list string) (h : string) (wl : list json) :
  forall l, missing_loop on h wl = Return l -> List.length l <= List.length wl.
Proof.
  induction wl as [|v wl IH]; simpl; intros l H.
  - injection H as <-. simpl. lia.
  - destruct (normalize v) as [n|]; simpl in H; [|discriminate].
    destruct (missing_loop on h wl) as [later|]; simpl in H; [|discriminate].
    specialize (IH later eq_refl).
    destruct (has_placeholder n); [injection H as <-; lia|].
    destruct (in_list n on); simpl in H; injection H as <-; simpl; lia.
Qed.

Section ComparatorMore.

Variable re_match : string -> string -> re_outcome.

Lemma is_additional_false (whitelist_normalized : list string) (L : string) :
  is_additional re_match whitelist_normalized L = false
  <-> is_boilerplate (normalized L) = true
      \/ In (normalized L) whitelist_normalized
      \/ exists w, In w whitelist_normalized
                   /\ has_placeholder w = true
                   /\ re_match (placeholder_pattern w) (normalized L) = ReMatch.
Proof.
  unfold is_additional. rewrite <- in_list_In, <- is_dynamic_spec.
  destruct (is_boilerplate (normalized L)),
           (in_list (normalized L) whitelist_normalized),
           (is_dynamic re_match whitelist_normalized (normalized L));
    simpl; split; auto; intros [H | [H | H]]; congruence.
Qed.

Lemma additional_loop_length (wn : list string) (h : string) (out : list json) :
  forall l, additional_loop re_match wn h out = Return l ->
            List.length l <= List.length out.
Proof.
  induction out as [|v out IH]; simpl; intros l H.
  - injection H as <-. simpl. lia.
  - destruct (normalize v) as [n|]; simpl in H; [|discriminate].
    destruct (additional_loop re_match wn h out) as [later|]; simpl in H;
      [|discriminate].
    specialize (IH later eq_refl).
    destruct (is_boilerplate n); [injection H as <-; lia|].
    destruct (in_list n wn); simpl in H; [injection H as <-; lia|].
    destruct (is_dynamic re_match wn n); simpl in H; injection H as <-; simpl; lia.
Qed.

(** X6. On lists of strings the comparator gives, in the order of the
    templates, one message for each listed template without placeholder
    whose normalized form is not among the normalized current lines, and, in
    the order of the lines, one message for each current line that is not
    boilerplate, equals no template after normalization and is matched by the
    pattern of no template with a placeholder. *)
Theorem findings_in_order (out wl : list string) (h sec : string) :
  compare_configurations re_match (map JStr out) (map JStr wl) h sec
  = (map (fun T => "missing config: " ++ T ++ ":" ++ h)
         (filter (fun T => negb (has_placeholder (normalized T))
                           && negb (in_list (normalized T) (map normalized out)))
                 wl),
     map (fun L => "additional config: " ++ L ++ ":" ++ h)
         (filter (fun L => negb (is_boilerplate (normalized L))
                           && negb (in_list (normalized L) (map normalized wl))
                           && negb (is_dynamic re_match (map normalized wl)
                                               (normalized L)))
                 out)).
Proof. apply compare_configurations_strs. Qed.

(** X7. The comparator finds nothing exactly when every template has a
    placeholder or is present among the current lines, and every current
    line is boilerplate, equals a template, or is matched by the pattern of a
    template with a placeholder (all comparisons on normalized forms). *)
Theorem no_findings_iff (out wl : list string) (h sec : string) :
  compare_configurations re_match (map JStr out) (map JStr wl) h sec = ([], [])
  <->
  (forall T, In T wl ->
             has_placeholder (normalized T) = true
             \/ In (normalized T) (map normalized out))
  /\
  (forall L, In L out ->
             is_boilerplate (normalized L) = true
             \/ In (normalized L) (map normalized wl)
             \/ exists w, In w wl
                          /\ has_placeholder (normalized w) = true
                          /\ re_match (placeholder_pattern (normalized w))
                                      (normalized L) = ReMatch).
Proof.
  rewrite compare_configurations_strs.
  split.
  - intros H. injection H as Hm Ha.
    apply map_nil_iff in Hm. apply map_nil_iff in Ha.
    rewrite filter_nil_iff in Hm, Ha. split.
    + intros T HT. apply is_missing_false. auto.
    + intros L HL. specialize (Ha L HL). apply is_additional_false in Ha.
      destruct Ha as [Hb | [Hi | [w' [Hin [Hp Hr]]]]]; auto.
      apply in_map_iff in Hin. destruct Hin as [w [<- Hw]].
      right. right. now exists w.
  - intros [Hm Ha]. f_equal; apply map_nil_iff, filter_nil_iff.
    + intros T HT. apply is_missing_false. auto.
    + intros L HL. apply is_additional_false.
      destruct (Ha L HL) as [Hb | [Hi | [w [Hw [Hp Hr]]]]]; auto.
      right. right. exists (normalized w). split; [now apply in_map | auto].
Qed.

(** X8. A list of lines compared with itself as the list of templates gives
    no finding, whatever the lines are. *)
Theorem self_comparison_clean (lines : list string) (h sec : string) :
  compare_configurations re_match (map JStr lines) (map JStr lines) h sec = ([], []).
Proof.
  rewrite compare_configurations_strs.
  f_equal; apply map_nil_iff, filter_nil_iff.
  - intros T HT. apply is_missing_false. right. now apply in_map.
  - intros L HL. apply is_additional_false. right. left. now apply in_map.
Qed.

(** X9. On any two lists, also ill-typed ones, there are at most as many
    missing findings as templates and at most as many extra findings as
    current lines. *)
Theorem findings_bounded (out wl : list json) (h sec : string) :
  List.length (fst (compare_configurations re_match out wl h sec)) <= List.length wl
  /\ List.length (snd (compare_configurations re_match out wl h sec)) <= List.length out.
Proof.
  unfold compare_configurations, compare_configurations_body.
  destruct (mapM normalize out) as [on|]; simpl; [|lia].
  destruct (mapM normalize wl) as [wn|]; simpl; [|lia].
  destruct (missing_loop on h wl) as [m|] eqn:Hm; simpl; [|lia].
  destruct (additional_loop re_match wn h out) as [a|] eqn:Ha; simpl; [|lia].
  split; [eapply missing_loop_length | eapply additional_loop_length]; eauto.
Qed.

(** X10. With no current line, every template without placeholder is
    reported missing and nothing is extra; with no template, nothing is
    missing and every current line that is not boilerplate is extra. *)
Theorem nothing_to_compare (lines : list string) (h sec : string) :
  compare_configurations re_match [] (map JStr lines) h sec
  = (map (fun T => "missing config: " ++ T ++ ":" ++ h)
         (filter (fun T => negb (has_placeholder (normalized T))) lines),
     [])
  /\
  compare_configurations re_match (map JStr lines) [] h sec
  = ([],
     map (fun L => "additional config: " ++ L ++ ":" ++ h)
         (filter (fun L => negb (is_boilerplate (normalized L))) lines)).
Proof.
  split.
  - rewrite (compare_configurations_strs re_match [] lines). simpl.
    f_equal. f_equal. apply filter_ext. intros T.
    unfold is_missing. simpl. apply andb_true_r.
  - rewrite (compare_configurations_strs re_match lines []). simpl.
    f_equal. f_equal. apply filter_ext. intros L.
    unfold is_additional. simpl. now rewrite !andb_true_r.
Qed.

(** X11. The missing findings depend on the current lines only through
    their normalized forms, and the extra findings on the templates only
    through theirs: letter case and surrounding white space do not count. *)
Theorem comparison_ignores_case_and_space
        (out out' wl wl' : list string) (h sec : string) :
  (map normalized out = map normalized out' ->
   fst (compare_configurations re_match (map JStr out) (map JStr wl) h sec)
   = fst (compare_configurations re_match (map JStr out') (map JStr wl) h sec))
  /\
  (map normalized wl = map normalized wl' ->
   snd (compare_configurations re_match (map JStr out) (map JStr wl) h sec)
   = snd (compare_configurations re_match (map JStr out) (map JStr wl') h sec)).
Proof.
  rewrite !compare_configurations_strs. cbn [fst snd].
  split; intros ->; reflexivity.
Qed.

(** X12. Findings only shrink when the other side grows: with more
    templates no extra finding is added, with more current lines no missing
    finding is added. *)
Theorem findings_antitone (out out' wl wl' : list string) (h sec f : string) :
  ((forall w, In w wl -> In w wl') ->
   In f (snd (compare_configurations re_match (map JStr out) (map JStr wl') h sec)) ->
   In f (snd (compare_configurations re_match (map JStr out) (map JStr wl) h sec)))
  /\
  ((forall L, In L out -> In L out') ->
   In f (fst (compare_configurations re_match (map JStr out') (map JStr wl) h sec)) ->
   In f (fst (compare_configurations re_match (map JStr out) (map JStr wl) h sec))).
Proof.
  rewrite !compare_configurations_strs. cbn [fst snd]. split.
  - intros Hsub Hin. apply in_map_iff in Hin. destruct Hin as [L [<- HL]].
    apply filter_In in HL. destruct HL as [HL Ha].
    apply in_map_iff. exists L. split; [reflexivity|].
    apply filter_In. split; [exact HL|].
    destruct (is_additional re_match (map normalized wl) L) eqn:E; [reflexivity|].
    apply is_additional_false in E.
    assert (Hfalse : is_additional re_match (map normalized wl') L = false);
      [|congruence].
    assert (Hmap : forall x, In x (map normalized wl) -> In x (map normalized wl')).
    { intros x Hx. apply in_map_iff in Hx. destruct Hx as [w [<- Hw]].
      apply in_map. auto. }
    apply is_additional_false.
    destruct E as [Hb | [Hi | [w [Hw Hrest]]]]; auto.
    right. right. exists w. auto.
  - intros Hsub Hin. apply in_map_iff in Hin. destruct Hin as [T [<- HT]].
    apply filter_In in HT. destruct HT as [HT Hm].
    apply in_map_iff. exists T. split; [reflexivity|].
    apply filter_In. split; [exact HT|].
    destruct (is_missing (map normalized out) T) eqn:E; [reflexivity|].
    apply is_missing_false in E.
    assert (Hfalse : is_missing (map normalized out') T = false); [|congruence].
    apply is_missing_false.
    destruct E as [Hp | Hi]; auto.
    right. apply in_map_iff in Hi. destruct Hi as [L [E HL]].
    rewrite <- E. apply in_map. auto.
Qed.

End ComparatorMore.

Lemma no_findings_iff_witness :
  compare_configurations
    re_fragment
    (map JStr ["NTP server 10.0.0.1 prefer"; "ntp source Loopback0 "])
    (map JStr ["ntp server [x.x.x.x]"; "ntp source loopback0"])
    "sw1" "ntp"
  = ([], []).
Proof.
  apply (proj2 (no_findings_iff
                  re_fragment
                  ["NTP server 10.0.0.1 prefer"; "ntp source Loopback0 "]
                  ["ntp server [x.x.x.x]"; "ntp source loopback0"] "sw1" "ntp")).
  split.
  - intros T [<- | [<- | []]].
    + left. reflexivity.
    + right. vm_compute. auto.
  - intros L [<- | [<- | []]].
    + right. right. exists "ntp server [x.x.x.x]".
      split; [now left | split; vm_compute; reflexivity].
    + right. left. vm_compute. auto.
Defined.

Lemma comparison_ignores_case_and_space_witness :
  fst (compare_configurations re_fragment (map JStr ["  NTP Server 10.0.0.1"])
                              (map JStr ["ntp server 10.0.0.1"; "logging on"])
                              "sw1" "ntp")
  = fst (compare_configurations re_fragment (map JStr ["ntp server 10.0.0.1"])
                                (map JStr ["ntp server 10.0.0.1"; "logging on"])
                                "sw1" "ntp")
  /\
  snd (compare_configurations re_fragment (map JStr ["logging on"; "ip ssh"])
                              (map JStr ["Logging ON "]) "sw1" "ntp")
  = snd (compare_configurations re_fragment (map JStr ["logging on"; "ip ssh"])
                                (map JStr ["logging on"]) "sw1" "ntp").
Proof.
  split.
  - apply (proj1 (comparison_ignores_case_and_space
                    re_fragment ["  NTP Server 10.0.0.1"] ["ntp server 10.0.0.1"]
                    ["ntp server 10.0.0.1"; "logging on"] [] "sw1" "ntp")).
    reflexivity.
  - apply (proj2 (comparison_ignores_case_and_space
                    re_fragment ["logging on"; "ip ssh"] []
                    ["Logging ON "] ["logging on"] "sw1" "ntp")).
    reflexivity.
Defined.

Lemma findings_antitone_witness :
  In "additional config: ip ssh:sw1"
     (snd (compare_configurations re_fragment (map JStr ["logging on"; "ip ssh"])
                                  (map JStr ["logging on"]) "sw1" "vty"))
  /\
  In "missing config: logging on:sw1"
     (fst (compare_configurations re_fragment (map JStr ["ip ssh"])
                                  (map JStr ["logging on"]) "sw1" "vty")).
Proof.
  split.
  - apply (proj1 (findings_antitone
                    re_fragment ["logging on"; "ip ssh"] []
                    ["logging on"] ["ntp master"; "logging on"] "sw1" "vty"
                    "additional config: ip ssh:sw1")).
    + intros w [<- | []]. right. now left.
    + vm_compute. now left.
  - apply (proj2 (findings_antitone
                    re_fragment ["ip ssh"] ["ip ssh"; "ntp master"]
                    ["logging on"] [] "sw1" "vty"
                    "missing config: logging on:sw1")).
    + intros L [<- | []]. now left.
    + vm_compute. now left.
Defined.

(** ** More on the section router *)

Lemma lookup_In {V : Type} (k : string) (d : list (string * V)) (v : V) :
  lookup k d = Some v -> In (k, v) d.
Proof.
  induction d as [|[k' v'] d IH]; simpl; [discriminate|].
  destruct (String.eqb k k') eqn:E.
  - apply String.eqb_eq in E. subst. intros H. injection H as <-. now left.
  - intros H. right. auto.
Qed.

Lemma lookup_None_keys {V : Type} (k : string) (d : list (string * V)) :
  lookup k d = None -> ~ In k (keys d).
Proof.
  intros H Hin. destruct (lookup_keys k d Hin) as [v Hv]. congruence.
Qed.

Lemma scan_keys_none (d : dict) (mapped : string) (ks : list string) :
  (forall k, In k ks -> lower k <> lower mapped) ->
  scan_keys (JDict d) mapped ks = Return JNull.
Proof.
  induction ks as [|k ks IH]; simpl; intros H; [reflexivity|].
  destruct (String.eqb (lower k) (lower mapped)) eqn:E.
  - apply String.eqb_eq in E. exfalso. apply (H k); auto.
  - apply IH. intros x Hx. apply H. now right.
Qed.

Lemma scan_keys_some (d : dict) (mapped : string) (ks : list string) :
  incl ks (keys d) ->
  (exists k, In k ks /\ lower k = lower mapped) ->
  exists k v, In (k, v) d /\ lower k = lower mapped
              /\ scan_keys (JDict d) mapped ks = Return v.
Proof.
  induction ks as [|k ks IH]; simpl; intros Hincl [k0 [Hin E0]]; [contradiction|].
  destruct (String.eqb (lower k) (lower mapped)) eqn:E.
  - apply String.eqb_eq in E.
    destruct (lookup_keys k d (Hincl k (or_introl eq_refl))) as [v Hv].
    exists k, v. rewrite Hv. split; [now apply lookup_In | auto].
  - apply IH.
    + intros x Hx. apply Hincl. now right.
    + destruct Hin as [-> | Hin].
      * rewrite E0, String.eqb_refl in E. discriminate.
      * now exists k0.
Qed.

Lemma resolve_output_section_absent (d : dict) (section_name : string) :
  (forall k, In k (keys d) -> lower k <> lower (section_alias section_name)) ->
  resolve_output_section (JDict d) section_name = Return JNull.
Proof.
  unfold resolve_output_section. fold (section_alias section_name).
  generalize (section_alias section_name). intros mapped.
  cbn [py_in py_getitem py_keys bind].
  intros Hnone. destruct (lookup mapped d) as [v|] eqn:E.
  - exfalso. apply (Hnone mapped); [|reflexivity].
    apply lookup_In in E. unfold keys.
    change mapped with (fst (mapped, v)). now apply in_map.
  - now apply scan_keys_none.
Qed.

(** X13. The section of the output is found without regard to letter case:
    when no key of the device data equals the alias of the section up to
    case, the section is absent ([None]); when some key does, the value of
    such a key is taken. *)
Theorem section_lookup_ignores_case (d : dict) (section_name : string) :
  ((forall k, In k (keys d) -> lower k <> lower (section_alias section_name)) ->
   resolve_output_section (JDict d) section_name = Return JNull)
  /\
  ((exists k, In k (keys d) /\ lower k = lower (section_alias section_name)) ->
   exists k v, In (k, v) d
               /\ lower k = lower (section_alias section_name)
               /\ resolve_output_section (JDict d) section_name = Return v).
Proof.
  split; [apply resolve_output_section_absent|].
  unfold resolve_output_section. fold (section_alias section_name).
  generalize (section_alias section_name). intros mapped.
  cbn [py_in py_getitem py_keys bind].
  - intros Hsome. destruct (lookup mapped d) as [v|] eqn:E.
    + exists mapped, v. split; [now apply lookup_In | auto].
    + apply scan_keys_some; [apply incl_refl | exact Hsome].
Qed.

Lemma section_lookup_ignores_case_witness :
  resolve_output_section (JDict [("ntp", JStr "ntp master")]) "tacacs" = Return JNull
  /\
  exists k v, In (k, v) [("ntp", JStr "ntp master"); ("Tacacs", JStr "tacacs server T1")]
              /\ lower k = lower (section_alias "tacacs")
              /\ resolve_output_section
                   (JDict [("ntp", JStr "ntp master"); ("Tacacs", JStr "tacacs server T1")])
                   "tacacs"
                 = Return v.
Proof.
  split.
  - apply (proj1 (section_lookup_ignores_case [("ntp", JStr "ntp master")] "tacacs")).
    intros k [<- | []]. vm_compute. discriminate.
  - apply (proj2 (section_lookup_ignores_case
                    [("ntp", JStr "ntp master"); ("Tacacs", JStr "tacacs server T1")]
                    "tacacs")).
    exists "Tacacs". split; [right; now left | reflexivity].
Defined.

Section RouterMore.

Variable re_match : string -> string -> re_outcome.

(** X14. A whitelist section whose part of the output is absent is compared
    with no line: each of its templates without placeholder is missing and
    nothing is extra. *)
Theorem absent_section_findings (host : string) (d : dict) (section_name : string)
        (required : list string) :
  (forall k, In k (keys d) -> lower k <> lower (section_alias section_name)) ->
  section_findings re_match host (JDict d) section_name required
  = Return (map (fun T => "missing config: " ++ T ++ ":" ++ host)
                (filter (fun T => negb (has_placeholder (normalized T))) required),
            []).
Proof.
  intros Hnone. unfold section_findings.
  rewrite (resolve_output_section_absent d section_name Hnone).
  cbn [bind]. f_equal.
  rewrite (compare_configurations_strs re_match [] required). simpl.
  f_equal. f_equal. apply filter_ext. intros T.
  unfold is_missing. simpl. apply andb_true_r.
Qed.

Lemma section_loop_flat (host : string) (device_data : json)
      (items : list (string * json)) :
  forall summary_data issues_list,
    section_loop re_match host device_data items summary_data issues_list
    = ((summary_data ++ flat_map (section_rows re_match host device_data) items)%list,
       (issues_list ++ flat_map (section_issues re_match host device_data) items)%list).
Proof.
  induction items as [|[name ws] items IH]; intros summary_data issues_list.
  - simpl. now rewrite !app_nil_r.
  - cbn [section_loop flat_map]. unfold section_rows at 1, section_issues at 1.
    cbn [fst snd].
    destruct (section_body re_match host device_data name ws) as [[[row f]|]|];
      rewrite IH; rewrite <- ?app_assoc; reflexivity.
Qed.

Lemma process_flat (od : dict) (whitelist_data : dict) :
  process_device_comparison re_match (JDict od) whitelist_data
  = (flat_map (section_rows re_match (extract_hostname_from_output (JDict od))
                            (match lookup "data" od with
                             | Some data => data
                             | None => JDict []
                             end)) whitelist_data,
     flat_map (section_issues re_match (extract_hostname_from_output (JDict od))
                              (match lookup "data" od with
                               | Some data => data
                               | None => JDict []
                               end)) whitelist_data).
Proof.
  unfold process_device_comparison, process_device_comparison_body.
  cbn [py_get bind try_except]. now rewrite section_loop_flat.
Qed.

Lemma process_not_mapping (output_data : json) (whitelist_data : dict) :
  isinstance_dict output_data = false ->
  process_device_comparison re_match output_data whitelist_data = ([], []).
Proof. destruct output_data; try reflexivity. discriminate. Qed.

(** X15. The sections are processed one by one, in the order of the
    whitelist: the summary and the issue list of two whitelists put one
    after the other are those of the first followed by those of the
    second. *)
Theorem sections_processed_in_order (output_data : json) (first second : dict) :
  process_device_comparison re_match output_data (first ++ second)%list
  = ((fst (process_device_comparison re_match output_data first)
      ++ fst (process_device_comparison re_match output_data second))%list,
     (snd (process_device_comparison re_match output_data first)
      ++ snd (process_device_comparison re_match output_data second))%list).
Proof.
  destruct (isinstance_dict output_data) eqn:E.
  - destruct output_data as [| | | | |od]; try discriminate.
    rewrite !process_flat. cbn [fst snd]. now rewrite !flat_map_app.
  - now rewrite !(process_not_mapping output_data _ E).
Qed.

Lemma section_body_no_requirements (host : string) (device_data : json)
      (item : string * json) :
  has_requirements item = false ->
  section_body re_match host device_data (fst item) (snd item) = Return None.
Proof.
  unfold has_requirements, section_body.
  destruct (parse_whitelist_section (snd item)); [reflexivity | discriminate].
Qed.

Lemma flat_map_filter_nil {A B : Type} (f : A -> list B) (p : A -> bool) (l : list A) :
  (forall x, p x = false -> f x = []) ->
  flat_map f l = flat_map f (filter p l).
Proof.
  intros H. induction l as [|x l IH]; simpl; [reflexivity|].
  destruct (p x) eqn:E; simpl; rewrite IH; [reflexivity|].
  now rewrite (H x E).
Qed.

(** X16. A whitelist section for which no required line is parsed leaves no
    trace: the run gives what it gives on the whitelist without such
    sections. *)
Theorem sections_without_requirements_skipped (output_data : json)
        (whitelist_data : dict) :
  process_device_comparison re_match output_data whitelist_data
  = process_device_comparison re_match output_data
                              (filter has_requirements whitelist_data).
Proof.
  destruct (isinstance_dict output_data) eqn:E.
  - destruct output_data as [| | | | |od]; try discriminate.
    rewrite !process_flat. f_equal; apply flat_map_filter_nil; intros item Hi.
    + unfold section_rows. now rewrite section_body_no_requirements.
    + unfold section_issues. now rewrite section_body_no_requirements.
  - now rewrite !(process_not_mapping output_data _ E).
Qed.

Lemma section_rows_counts (host : string) (device_data : json)
      (item : string * json) :
  Forall counts_fit_status (section_rows re_match host device_data item)
  /\ List.length (section_issues re_match host device_data item)
     = findings_counted (section_rows re_match host device_data item).
Proof.
  unfold section_rows, section_issues, section_body, findings_counted.
  destruct (parse_whitelist_section (snd item)) as [|r rs].
  - split; [constructor | reflexivity].
  - destruct (section_findings re_match host device_data (fst item) (r :: rs))
      as [[m a]|]; cbn [bind].
    + split.
      * constructor; [|constructor]. unfold counts_fit_status. cbn [status].
        destruct m, a; simpl; auto; lia.
      * simpl. rewrite length_app. lia.
    + split; [|reflexivity]. constructor; [|constructor].
      unfold counts_fit_status. simpl. auto.
Qed.

Lemma findings_counted_app (a b : list summary_row) :
  findings_counted (a ++ b) = findings_counted a + findings_counted b.
Proof.
  unfold findings_counted. now rewrite map_app, list_sum_app.
Qed.

(** X17. In the result of a run the counts of the rows add up to the number
    of issues, and the counts of each row fit its status: both 0 for [OK]
    and for [error], not both 0 for [to_check]. *)
Theorem summary_counts_issues (output_data : json) (whitelist_data : dict) :
  List.length (snd (process_device_comparison re_match output_data whitelist_data))
  = list_sum (map (fun row => missing_count row + additional_count row)
                  (fst (process_device_comparison re_match output_data whitelist_data)))
  /\
  Forall (fun row =>
            match status row with
            | OK => missing_count row = 0 /\ additional_count row = 0
            | to_check => 0 < missing_count row + additional_count row
            | error => missing_count row = 0 /\ additional_count row = 0
            end)
         (fst (process_device_comparison re_match output_data whitelist_data)).
Proof.
  fold counts_fit_status.
  change (fun row => counts_fit_status row) with counts_fit_status.
  match goal with
  | |- _ = list_sum (map _ ?l) /\ _ => change (list_sum (map _ l)) with (findings_counted l)
  end.
  destruct (isinstance_dict output_data) eqn:E.
  - destruct output_data as [| | | | |od]; try discriminate.
    rewrite process_flat. cbn [fst snd].
    generalize (extract_hostname_from_output (JDict od)).
    generalize (match lookup "data" od with Some data => data | None => JDict [] end).
    intros device_data host.
    induction whitelist_data as [|item items [IHl IHf]]; [split; [reflexivity|constructor]|].
    cbn [flat_map].
    destruct (section_rows_counts host device_data item) as [Hf Hl].
    split.
    + rewrite length_app, findings_counted_app. lia.
    + apply Forall_app. auto.
  - rewrite (process_not_mapping output_data _ E). split; [reflexivity | constructor].
Qed.

Lemma hostname_non_mapping_data (od : dict) (data : json) :
  lookup "data" od = Some data ->
  isinstance_dict data = false ->
  extract_hostname_from_output (JDict od) = "Unknown-Device".
Proof.
  intros Hd Hn.
  unfold extract_hostname_from_output, extract_hostname_body.
  cbn [py_in py_getitem bind]. rewrite Hd. cbn [bind].
  destruct data as [| b | n | s | l | d]; try reflexivity.
  - cbn [py_in py_getitem bind].
    destruct (contains "version" s); cbn [bind]; [reflexivity|].
    destruct (contains "run_config" s); reflexivity.
  - cbn [py_in py_getitem bind].
    destruct (existsb _ l); cbn [bind]; [reflexivity|].
    destruct (existsb _ l); reflexivity.
  - discriminate.
Qed.

Lemma section_rows_fault (host : string) (device_data : json) (item : string * json) :
  isinstance_dict device_data = false ->
  section_rows re_match host device_data item
  = (if has_requirements item then [error_row (fst item) host] else [])
  /\ section_issues re_match host device_data item = [].
Proof.
  intros Hn. unfold section_rows, section_issues, section_body, has_requirements.
  destruct (parse_whitelist_section (snd item)) as [|r rs]; [split; reflexivity|].
  rewrite (proj2 (section_findings_raises re_match host device_data (fst item) (r :: rs)) Hn).
  split; reflexivity.
Qed.

Lemma section_rows_no_fault (host : string) (d : dict) (item : string * json) :
  Forall (fun row => status row <> error)
         (section_rows re_match host (JDict d) item).
Proof.
  unfold section_rows, section_body.
  destruct (parse_whitelist_section (snd item)) as [|r rs]; [constructor|].
  destruct (section_findings re_match host (JDict d) (fst item) (r :: rs))
    as [[m a]|] eqn:Hf; cbn [bind].
  - constructor; [|constructor]. cbn [status].
    destruct m, a; discriminate.
  - apply section_findings_raises in Hf. discriminate.
Qed.

(** X18. Faults strike a whole run or none of it.  An output document that
    is no mapping gives an empty result.  When its [data] is present and no
    mapping, every whitelist section with requirements gets a row with
    status [error] under the hostname ["Unknown-Device"], and there is no
    issue.  When [data] is a mapping or is absent, no row has status
    [error]. *)
Theorem faults_all_or_nothing (output_data : json) (od : dict) (data : json)
        (whitelist_data : dict) :
  (isinstance_dict output_data = false ->
   process_device_comparison re_match output_data whitelist_data = ([], []))
  /\
  (lookup "data" od = Some data ->
   isinstance_dict data = false ->
   process_device_comparison re_match (JDict od) whitelist_data
   = (map (fun item => error_row (fst item) "Unknown-Device")
          (filter has_requirements whitelist_data),
      []))
  /\
  (lookup "data" od = None \/ (exists d, lookup "data" od = Some (JDict d)) ->
   Forall (fun row => status row <> error)
          (fst (process_device_comparison re_match (JDict od) whitelist_data))).
Proof.
  split; [apply process_not_mapping | split].
  - intros Hd Hn. rewrite process_flat.
    rewrite (hostname_non_mapping_data od data Hd Hn), Hd.
    induction whitelist_data as [|item items IH]; [reflexivity|].
    cbn [flat_map filter].
    destruct (section_rows_fault "Unknown-Device" data item Hn) as [-> ->].
    injection IH as IHr IHi. rewrite IHr, IHi.
    destruct (has_requirements item); reflexivity.
  - intros Hd. rewrite process_flat. cbn [fst].
    assert (Hdict : exists d, match lookup "data" od with
                              | Some data => data
                              | None => JDict []
                              end = JDict d).
    { destruct Hd as [-> | [d ->]]; eauto. }
    destruct Hdict as [d ->].
    apply Forall_flat_map. intros item. apply section_rows_no_fault.
Qed.

End RouterMore.

Lemma absent_section_findings_witness :
  section_findings re_fragment "sw1" (JDict [("ntp", JStr "ntp master")]) "tacacs"
                   ["tacacs server [x.x.x.x]"; "aaa new-model"]
  = Return (["missing config: aaa new-model:sw1"], []).
Proof.
  refine (eq_trans
            (absent_section_findings re_fragment "sw1" [("ntp", JStr "ntp master")]
                                     "tacacs" ["tacacs server [x.x.x.x]"; "aaa new-model"] _) _).
  - intros k [<- | []]. vm_compute. discriminate.
  - reflexivity.
Defined.

Lemma faults_all_or_nothing_witness :
  process_device_comparison re_fragment (JStr "data") [("ntp", JDict [])] = ([], [])
  /\
  process_device_comparison
    re_fragment
    (JDict [("data", JStr "version 15.2")])
    [("ntp", JDict [("must_include", JList [JStr "ntp master"])]);
     ("vty", JDict []);
     ("mtu", JDict [("must_include", JList [JStr "system mtu 1500"])])]
  = ([error_row "ntp" "Unknown-Device"; error_row "mtu" "Unknown-Device"], [])
  /\
  Forall (fun row => status row <> error)
         (fst (process_device_comparison
                 re_fragment
                 (JDict [("changed", JBool false)])
                 [("ntp", JDict [("must_include", JList [JStr "ntp master"])])])).
Proof.
  split; [|split].
  - apply (proj1 (faults_all_or_nothing re_fragment (JStr "data") [] JNull
                    [("ntp", JDict [])])).
    reflexivity.
  - refine (eq_trans
              (proj1 (proj2 (faults_all_or_nothing
                               re_fragment JNull
                               [("data", JStr "version 15.2")] (JStr "version 15.2")
                               [("ntp", JDict [("must_include", JList [JStr "ntp master"])]);
                                ("vty", JDict []);
                                ("mtu", JDict [("must_include",
                                                JList [JStr "system mtu 1500"])])]))
                     _ _) _); reflexivity.
  - apply (proj2 (proj2 (faults_all_or_nothing
                           re_fragment JNull [("changed", JBool false)] JNull
                           [("ntp", JDict [("must_include", JList [JStr "ntp master"])])]))).
    now left.
Defined.

(** ** The sheets of a run *)

Lemma finding_counted (host f : string) :
  is_finding host f ->
  contains "missing config:" f = true \/ contains "additional config:" f = true.
Proof.
  intros [[body ->] | [body ->]]; [left | right]; apply contains_prefix; reflexivity.
Qed.

Lemma findings_counted_by_kind (host : string) (issues_list : list string) :
  Forall (is_finding host) issues_list ->
  List.length issues_list
  <= List.length (filter (contains "missing config:") issues_list)
     + List.length (filter (contains "additional config:") issues_list).
Proof.
  induction 1 as [|f l Hf _ IH]; simpl; [lia|].
  destruct (finding_counted host f Hf) as [-> | ->]; simpl;
    destruct (contains _ f); simpl; lia.
Qed.

Section SheetFacts.

Variable re_match : string -> string -> re_outcome.

Lemma section_rows_shape (host : string) (device_data : json) (item : string * json) :
  Forall (fun row => hostname row = host) (section_rows re_match host device_data item)
  /\ List.length (section_rows re_match host device_data item)
     = (if has_requirements item then 1 else 0)
  /\ Forall (is_finding host) (section_issues re_match host device_data item).
Proof.
  unfold section_rows, section_issues, section_body, has_requirements.
  destruct (parse_whitelist_section (snd item)) as [|r rs];
    [repeat split; constructor|].
  destruct (section_findings re_match host device_data (fst item) (r :: rs))
    as [[m a]|] eqn:Hf; cbn [bind].
  - split; [|split]; [repeat constructor | reflexivity |].
    eapply section_findings_shape; eauto.
  - split; [|split]; [repeat constructor | reflexivity | constructor].
Qed.

Lemma run_shape (host : string) (device_data : json) (items : list (string * json)) :
  Forall (fun row => hostname row = host)
         (flat_map (section_rows re_match host device_data) items)
  /\ List.length (flat_map (section_rows re_match host device_data) items)
     = List.length (filter has_requirements items)
  /\ Forall (is_finding host)
            (flat_map (section_issues re_match host device_data) items).
Proof.
  induction items as [|item items [IHh [IHl IHf]]];
    [repeat split; constructor|].
  cbn [flat_map filter].
  destruct (section_rows_shape host device_data item) as [Hh [Hl Hf]].
  split; [|split].
  - apply Forall_app. auto.
  - rewrite length_app, Hl, IHl. destruct (has_requirements item); reflexivity.
  - apply Forall_app. auto.
Qed.

Lemma run_counts (host : string) (device_data : json) (items : list (string * json)) :
  List.length (flat_map (section_issues re_match host device_data) items)
  = findings_counted (flat_map (section_rows re_match host device_data) items).
Proof.
  induction items as [|item items IH]; [reflexivity|].
  cbn [flat_map]. rewrite length_app, findings_counted_app, IH.
  now rewrite (proj2 (section_rows_counts re_match host device_data item)).
Qed.

Lemma statistics_of_sections (host : string) (device_data : json)
      (items : list (string * json)) (stats : statistics) :
  statistics_sheet (flat_map (section_rows re_match host device_data) items)
                   (flat_map (section_issues re_match host device_data) items)
  = Some stats ->
  device_hostname stats = host
  /\ total_sections stats = List.length (filter has_requirements items)
  /\ total_issues stats
     = findings_counted (flat_map (section_rows re_match host device_data) items).
Proof.
  destruct (run_shape host device_data items) as [Hh [Hl _]].
  pose proof (run_counts host device_data items) as Hc.
  unfold statistics_sheet.
  destruct (flat_map (section_rows re_match host device_data) items)
    as [|first rows]; [discriminate|].
  intros Hs. injection Hs as <-.
  cbn [device_hostname total_sections total_issues].
  split; [|split]; [now inversion Hh | exact Hl | exact Hc].
Qed.

(** X19. When a run has a statistics sheet, the sheet names the hostname
    extracted from the output document, counts one section for each
    whitelist section with requirements, and counts as many issues as the
    rows of the summary report together. *)
Theorem statistics_of_run (output_data : json) (whitelist_data : dict)
        (stats : statistics) :
  statistics_sheet (fst (process_device_comparison re_match output_data whitelist_data))
                   (snd (process_device_comparison re_match output_data whitelist_data))
  = Some stats ->
  device_hostname stats = extract_hostname_from_output output_data
  /\ total_sections stats = List.length (filter has_requirements whitelist_data)
  /\ total_issues stats
     = list_sum (map (fun row => missing_count row + additional_count row)
                     (fst (process_device_comparison re_match output_data
                                                     whitelist_data))).
Proof.
  destruct (isinstance_dict output_data) eqn:E.
  - destruct output_data as [| | | | |od]; try discriminate.
    rewrite process_flat. cbn [fst snd]. apply statistics_of_sections.
  - rewrite (process_not_mapping re_match output_data _ E). discriminate.
Qed.

(** X20. Every issue of a run is counted as missing or as additional on the
    statistics sheet, so the two counts together are never below the total;
    they can exceed it, since the kind is read off by searching the text. *)
Theorem issues_counted_by_kind (output_data : json) (whitelist_data : dict)
        (stats : statistics) :
  statistics_sheet (fst (process_device_comparison re_match output_data whitelist_data))
                   (snd (process_device_comparison re_match output_data whitelist_data))
  = Some stats ->
  total_issues stats <= missing_configurations stats + additional_configurations stats.
Proof.
  intros Hs. unfold statistics_sheet in Hs.
  destruct (fst (process_device_comparison re_match output_data whitelist_data));
    [discriminate|].
  injection Hs as <-.
  cbn [total_issues missing_configurations additional_configurations].
  apply (findings_counted_by_kind (extract_hostname_from_output output_data)).
  destruct (isinstance_dict output_data) eqn:E.
  - destruct output_data as [| | | | |od]; try discriminate.
    rewrite process_flat. cbn [snd]. apply run_shape.
  - rewrite (process_not_mapping re_match output_data _ E). constructor.
Qed.

End SheetFacts.

Lemma statistics_of_run_witness :
  device_hostname
    {| device_hostname := "sw1"; total_sections := 2; total_issues := 2;
       missing_configurations := 1; additional_configurations := 2;
       compliance_percent := 50 |}
  = extract_hostname_from_output
      (JDict [("data", JDict [("version", JList [JStr "hostname sw1"]);
                              ("Log_server", JList [JStr "logging host 10.0.0.9"])])])
  /\ total_sections
       {| device_hostname := "sw1"; total_sections := 2; total_issues := 2;
          missing_configurations := 1; additional_configurations := 2;
          compliance_percent := 50 |}
     = List.length
         (filter has_requirements
                 [("logging", JDict [("must_include",
                                     JList [JStr "additional config: none"])]);
                  ("empty", JDict []);
                  ("ntp", JDict [("must_include", JList [JStr "ntp server [x.x.x.x]"])])])
  /\ total_issues
       {| device_hostname := "sw1"; total_sections := 2; total_issues := 2;
          missing_configurations := 1; additional_configurations := 2;
          compliance_percent := 50 |}
     = list_sum
         (map (fun row => missing_count row + additional_count row)
              (fst (process_device_comparison
                      re_fragment
                      (JDict [("data",
                               JDict [("version", JList [JStr "hostname sw1"]);
                                      ("Log_server", JList [JStr "logging host 10.0.0.9"])])])
                      [("logging", JDict [("must_include",
                                          JList [JStr "additional config: none"])]);
                       ("empty", JDict []);
                       ("ntp", JDict [("must_include",
                                      JList [JStr "ntp server [x.x.x.x]"])])]))).
Proof.
  apply (statistics_of_run
           re_fragment
           (JDict [("data", JDict [("version", JList [JStr "hostname sw1"]);
                                   ("Log_server", JList [JStr "logging host 10.0.0.9"])])])
           [("logging", JDict [("must_include", JList [JStr "additional config: none"])]);
            ("empty", JDict []);
            ("ntp", JDict [("must_include", JList [JStr "ntp server [x.x.x.x]"])])]).
  vm_compute. reflexivity.
Defined.

Lemma issues_counted_by_kind_witness :
  total_issues
    {| device_hostname := "sw1"; total_sections := 2; total_issues := 2;
       missing_configurations := 1; additional_configurations := 2;
       compliance_percent := 50 |}
  <= missing_configurations
       {| device_hostname := "sw1"; total_sections := 2; total_issues := 2;
          missing_configurations := 1; additional_configurations := 2;
          compliance_percent := 50 |}
     + additional_configurations
         {| device_hostname := "sw1"; total_sections := 2; total_issues := 2;
            missing_configurations := 1; additional_configurations := 2;
            compliance_percent := 50 |}.
Proof.
  apply (issues_counted_by_kind
           re_fragment
           (JDict [("data", JDict [("version", JList [JStr "hostname sw1"]);
                                   ("Log_server", JList [JStr "logging host 10.0.0.9"])])])
           [("logging", JDict [("must_include", JList [JStr "additional config: none"])]);
            ("empty", JDict []);
            ("ntp", JDict [("must_include", JList [JStr "ntp server [x.x.x.x]"])])]).
  vm_compute. reflexivity.
Defined.

(** ** The summary sheet *)

Lemma lookup_dict_set_same {V : Type} (k : string) (v : V) (d : list (string * V)) :
  lookup k (dict_set k v d) = Some v.
Proof.
  induction d as [|[k' v'] d IH]; simpl.
  - now rewrite String.eqb_refl.
  - destruct (String.eqb k k') eqn:E; simpl; rewrite E; [reflexivity | exact IH].
Qed.

Lemma lookup_dict_set_other {V : Type} (k k' : string) (v : V) (d : list (string * V)) :
  k <> k' -> lookup k (dict_set k' v d) = lookup k d.
Proof.
  intros Hne. induction d as [|[k0 v0] d IH]; simpl.
  - apply String.eqb_neq in Hne. now rewrite Hne.
  - destruct (String.eqb k' k0) eqn:E; simpl.
    + apply String.eqb_eq in E. subst k0.
      apply String.eqb_neq in Hne. now rewrite Hne.
    + now rewrite IH.
Qed.

Lemma upper_char_not_lower (c : ascii) :
  upper_char c <> "o"%char /\ upper_char c <> "h"%char.
Proof.
  destruct c as [[|] [|] [|] [|] [|] [|] [|] [|]]; split; vm_compute; discriminate.
Qed.

Lemma upper_not_fixed_column (s : string) :
  upper s <> "SR.No." /\ upper s <> "hostname of the devices".
Proof.
  split.
  - destruct s as [|c1 [|c2 [|c3 [|c4 [|c5 s]]]]]; try discriminate.
    cbn [upper]. intros H. injection H as _ _ _ _ H _.
    now apply (proj1 (upper_char_not_lower c5)).
  - destruct s as [|c1 s]; [discriminate|].
    cbn [upper]. intros H. injection H as H _.
    now apply (proj2 (upper_char_not_lower c1)).
Qed.

Lemma fold_columns_other (k : string) (rows : list summary_row) :
  (forall r, In r rows -> upper (section r) <> k) ->
  forall cols, lookup k (fold_left set_column rows cols) = lookup k cols.
Proof.
  induction rows as [|r rows IH]; intros Hne cols; [reflexivity|].
  cbn [fold_left]. rewrite IH.
  - unfold set_column. apply lookup_dict_set_other.
    intros E. apply (Hne r); [now left | now symmetry].
  - intros r' Hr'. apply Hne. now right.
Qed.

(** X21. On the summary sheet the columns [SR.No.] and [hostname of the
    devices] are never overwritten by a section, whatever the sections are
    called; and the column under the upper-cased name of a section holds the
    status of the last row with that upper-cased name, so sections equal up
    to case share one column. *)
Theorem summary_sheet_columns (summary_data : list summary_row)
        (columns : list (string * json)) :
  summary_sheet summary_data = Some columns ->
  (forall first rest,
      summary_data = first :: rest ->
      lookup "SR.No." columns = Some (JList [JInt 1])
      /\ lookup "hostname of the devices" columns
         = Some (JList [JStr (hostname first)]))
  /\
  (forall before row after,
      summary_data = (before ++ row :: after)%list ->
      (forall r, In r after -> upper (section r) <> upper (section row)) ->
      lookup (upper (section row)) columns
      = Some (JList [JStr (status_text (status row))])).
Proof.
  intros Hs. unfold summary_sheet in Hs.
  destruct summary_data as [|first0 rest0]; [discriminate|].
  assert (Hc : columns
               = fold_left set_column (first0 :: rest0)
                           [("SR.No.", JList [JInt 1]);
                            ("hostname of the devices", JList [JStr (hostname first0)])]).
  { injection Hs as <-. reflexivity. }
  clear Hs. subst columns. split.
  - intros first rest E. injection E as <- <-.
    rewrite (fold_columns_other "SR.No." (first0 :: rest0)),
            (fold_columns_other "hostname of the devices" (first0 :: rest0));
      [split; reflexivity | |]; intros r _; apply upper_not_fixed_column.
  - intros before row after E Hlast. rewrite E.
    rewrite fold_left_app. cbn [fold_left].
    rewrite (fold_columns_other _ after Hlast).
    unfold set_column at 1. apply lookup_dict_set_same.
Qed.

Lemma summary_sheet_columns_witness :
  (lookup "SR.No."
          [("SR.No.", JList [JInt 1]);
           ("hostname of the devices", JList [JStr "sw1"]);
           ("SNMP_RUN", JList [JStr "OK"]);
           ("SR.NO.", JList [JStr "error"])]
   = Some (JList [JInt 1])
   /\ lookup "hostname of the devices"
             [("SR.No.", JList [JInt 1]);
              ("hostname of the devices", JList [JStr "sw1"]);
              ("SNMP_RUN", JList [JStr "OK"]);
              ("SR.NO.", JList [JStr "error"])]
      = Some (JList [JStr "sw1"]))
  /\
  lookup "SNMP_RUN"
         [("SR.No.", JList [JInt 1]);
          ("hostname of the devices", JList [JStr "sw1"]);
          ("SNMP_RUN", JList [JStr "OK"]);
          ("SR.NO.", JList [JStr "error"])]
  = Some (JList [JStr "OK"]).
Proof.
  pose proof (summary_sheet_columns
                [ {| section := "snmp_Run"; hostname := "sw1"; status := to_check;
                     missing_count := 1; additional_count := 0 |};
                  {| section := "snmp_run"; hostname := "sw1"; status := OK;
                     missing_count := 0; additional_count := 0 |};
                  error_row "sr.no." "sw1" ]
                [("SR.No.", JList [JInt 1]);
                 ("hostname of the devices", JList [JStr "sw1"]);
                 ("SNMP_RUN", JList [JStr "OK"]);
                 ("SR.NO.", JList [JStr "error"])]
                eq_refl) as [Hfixed Hsection].
  split.
  - exact (Hfixed _ _ eq_refl).
  - refine (Hsection
              [ {| section := "snmp_Run"; hostname := "sw1"; status := to_check;
                   missing_count := 1; additional_count := 0 |} ]
              {| section := "snmp_run"; hostname := "sw1"; status := OK;
                 missing_count := 0; additional_count := 0 |}
              [error_row "sr.no." "sw1"] eq_refl _).
    intros r [<- | []]. vm_compute. discriminate.
Defined.

(** ** The shape of the hostname *)

Lemma take_while_all (p : ascii -> bool) (s : string) (c : ascii) :
  In c (list_ascii_of_string (take_while p s)) -> p c = true.
Proof.
  induction s as [|a s IH]; simpl; [intros []|].
  destruct (p a) eqn:E; simpl; [|intros []].
  intros [<- | H]; auto.
Qed.

Lemma hostname_at_token (s token : string) :
  hostname_at s = Some token ->
  token <> "" /\ forall c, In c (list_ascii_of_string token) -> is_space c = false.
Proof.
  unfold hostname_at. destruct (prefix_ci "hostname" s); [|discriminate].
  destruct (drop 8 s) as [|c rest]; [discriminate|].
  destruct (is_space c); [|discriminate].
  destruct (lstrip_by_head is_space rest) as [E | [a [r [E Ea]]]]; rewrite E.
  - discriminate.
  - cbn [nonempty]. intros H. injection H as <-. split.
    + cbn [take_while]. unfold not_space at 1. rewrite Ea. discriminate.
    + intros x Hx. apply (take_while_all not_space (String a r)) in Hx.
      unfold not_space in Hx. now apply negb_true_iff in Hx.
Qed.

Lemma hostname_search_token (line token : string) :
  hostname_search line = Some token ->
  token <> "" /\ forall c, In c (list_ascii_of_string token) -> is_space c = false.
Proof.
  induction line as [|c line IH]; cbn [hostname_search].
  - destruct (hostname_at "") eqn:E; [|discriminate].
    intros H. injection H as <-. eapply hostname_at_token; eauto.
  - destruct (hostname_at (String c line)) eqn:E.
    + intros H. injection H as <-. eapply hostname_at_token; eauto.
    + exact IH.
Qed.

Lemma first_token_found (lines : list string) (token : string) :
  first_token lines = Some token ->
  exists line, In line lines /\ hostname_search line = Some token.
Proof.
  induction lines as [|l lines IH]; simpl; [discriminate|].
  destruct (hostname_search l) eqn:E.
  - intros H. injection H as <-. exists l. auto.
  - intros H. destruct (IH H) as [line [Hin Hs]]. exists line. auto.
Qed.

Lemma extract_hostname_cases (output_data : json) :
  extract_hostname_from_output output_data = "Unknown-Device"
  \/ exists line, hostname_search line = Some (extract_hostname_from_output output_data).
Proof.
  unfold extract_hostname_from_output, extract_hostname_body.
  destruct output_data as [| b | n | s | l | od]; try (left; reflexivity).
  - cbn [py_in bind]. destruct (contains "data" s); left; reflexivity.
  - cbn [py_in bind]. destruct (existsb _ l); left; reflexivity.
  - cbn [py_in py_getitem bind].
    destruct (lookup "data" od) as [data|]; [|left; reflexivity].
    cbn [bind].
    destruct data as [| b | n | s | l | data]; try (left; reflexivity).
    + cbn [py_in py_getitem bind].
      destruct (contains "version" s); cbn [bind]; [left; reflexivity|].
      destruct (contains "run_config" s); left; reflexivity.
    + cbn [py_in py_getitem bind].
      destruct (existsb _ l); cbn [bind]; [left; reflexivity|].
      destruct (existsb _ l); left; reflexivity.
    + rewrite extract_hostname_data_dict.
      destruct (first_token (hostname_lines data)) as [token|] eqn:E;
        [|left; reflexivity].
      right. destruct (first_token_found _ _ E) as [line [_ Hs]]. now exists line.
Qed.

(** X22. The hostname of a run is ["Unknown-Device"] or a non-empty token
    without any white-space character. *)
Theorem hostname_is_token (output_data : json) :
  extract_hostname_from_output output_data = "Unknown-Device"
  \/ (extract_hostname_from_output output_data <> ""
      /\ forall c, In c (list_ascii_of_string (extract_hostname_from_output output_data)) ->
                   is_space c = false).
Proof.
  destruct (extract_hostname_cases output_data) as [E | [line Hs]].
  - now left.
  - right. eapply hostname_search_token; eauto.
Qed.

Lemma hostname_is_token_witness :
  is_space "w"%char = false.
Proof.
  destruct (hostname_is_token
              (JDict [("data", JDict [("run_config", JStr "!
hostname   sw1-core  
ip ssh version 2")])]))
    as [E | [_ H]].
  - discriminate E.
  - apply H. vm_compute. right. now left.
Defined.

(** ** The whitelist file parser *)

Lemma keys_dict_set_In {V : Type} (k x : string) (v : V) (d : list (string * V)) :
  In x (keys (dict_set k v d)) <-> x = k \/ In x (keys d).
Proof.
  induction d as [|[k0 v0] d IH]; simpl.
  - split; [intros [<- | []]; auto | intros [-> | []]; auto].
  - destruct (String.eqb k k0) eqn:E; simpl.
    + apply String.eqb_eq in E. subst k0. intuition congruence.
    + rewrite IH. intuition congruence.
Qed.

Lemma NoDup_dict_set {V : Type} (k : string) (v : V) (d : list (string * V)) :
  NoDup (keys d) -> NoDup (keys (dict_set k v d)).
Proof.
  induction d as [|[k0 v0] d IH]; simpl; intros H.
  - constructor; [intros [] | constructor].
  - destruct (String.eqb k k0) eqn:E; simpl; [exact H|].
    inversion H as [|? ? Hnot Hnd]; subst. constructor; [|auto].
    rewrite keys_dict_set_In. intros [-> | Hin]; [|contradiction].
    rewrite String.eqb_refl in E. discriminate.
Qed.

Lemma Forall_dict_set {V : Type} (P : string * V -> Prop) (k : string) (v : V)
      (d : list (string * V)) :
  P (k, v) -> Forall P d -> Forall P (dict_set k v d).
Proof.
  intros Hk. induction 1 as [|[k0 v0] d H0 Hd IH]; simpl.
  - constructor; [exact Hk | constructor].
  - destruct (String.eqb k k0) eqn:E.
    + apply String.eqb_eq in E. subst k0. constructor; assumption.
    + constructor; assumption.
Qed.


Lemma nonempty_true (s : string) : nonempty s = true <-> s <> "".
Proof. destruct s; simpl; split; congruence. Qed.

Lemma flush_ok (st : parser_state) :
  parser_state_ok st ->
  NoDup (keys (flush st)) /\ Forall whitelist_entry (flush st).
Proof.
  intros [Hnd [Hen Hit]]. unfold flush.
  destruct (current_section st) as [name|]; [|auto].
  destruct (current_items st) as [|i items] eqn:Ei; [auto|].
  destruct (nonempty name) eqn:En; [|auto].
  split; [now apply NoDup_dict_set|].
  apply Forall_dict_set; [|exact Hen].
  split; [now apply nonempty_true|].
  exists (i :: items). split; [reflexivity | split; [discriminate | exact Hit]].
Qed.

Lemma parser_step_ok (st : parser_state) (raw : string) :
  parser_state_ok st -> parser_state_ok (parser_step st raw).
Proof.
  intros Hok. unfold parser_step.
  destruct (nonempty _ && negb _ && endswith_char _ ":").
  - destruct (flush_ok st Hok) as [Hnd Hen].
    split; [exact Hnd | split; [exact Hen | constructor]].
  - destruct (String.eqb _ "must_include:"); [exact Hok|].
    destruct (nonempty _ && (_ || _)); [|exact Hok].
    destruct (nonempty (clean_item _)) eqn:En; [|exact Hok].
    destruct Hok as [Hnd [Hen Hit]].
    split; [exact Hnd | split; [exact Hen|]]. cbn [current_items].
    apply Forall_app. split; [exact Hit|].
    constructor; [now apply nonempty_true | constructor].
Qed.

Lemma parser_loop_ok (lines : list string) :
  forall st, parser_state_ok st -> parser_state_ok (fold_left parser_step lines st).
Proof.
  induction lines as [|raw lines IH]; intros st Hok; [exact Hok|].
  cbn [fold_left]. apply IH. now apply parser_step_ok.
Qed.

(** X23. Whatever the lines of the file, the parsed whitelist has pairwise
    distinct section names, none of them empty, and every section holds a
    non-empty list of non-empty items under [must_include]. *)
Theorem parsed_whitelist_well_formed (lines : list string) :
  NoDup (keys (parse_whitelist_manual lines))
  /\ Forall (fun kv =>
               fst kv <> ""
               /\ exists items,
                   snd kv = JDict [("must_include", JList (map JStr items))]
                   /\ items <> []
                   /\ Forall (fun item => item <> "") items)
            (parse_whitelist_manual lines).
Proof.
  apply flush_ok. apply parser_loop_ok.
  split; [constructor | split; constructor].
Qed.

Lemma filter_truthy_strs (items : list string) :
  filter truthy (map JStr items) = map JStr (filter nonempty items).
Proof.
  induction items as [|i items IH]; simpl; [reflexivity|].
  destruct (nonempty i); simpl; now rewrite IH.
Qed.

Lemma filter_nonempty_strip (items : list string) :
  filter nonempty (map strip (filter nonempty items))
  = filter nonempty (map strip items).
Proof.
  induction items as [|i items IH]; simpl; [reflexivity|].
  destruct i as [|c i]; simpl; [exact IH|].
  now rewrite IH.
Qed.

(** X24. Every required line the section parser gives is non-empty; and from
    a [must_include] that is a list of strings, as the file parser builds
    it, it gives the items trimmed, in order, without those that are blank. *)
Theorem required_lines_of_section (section_data : json) (items : list string) :
  Forall (fun line => line <> "") (parse_whitelist_section section_data)
  /\ parse_whitelist_section (JDict [("must_include", JList (map JStr items))])
     = filter nonempty (map strip items).
Proof.
  split.
  - unfold parse_whitelist_section, parse_whitelist_section_body.
    cbn [try_except]. apply Forall_forall. intros line Hin.
    apply filter_In in Hin. now apply nonempty_true.
  - unfold parse_whitelist_section, parse_whitelist_section_body.
    cbn [try_except lookup]. change (("must_include" =? "must_include")%string) with true.
    cbn iota. rewrite filter_truthy_strs, map_map.
    apply filter_nonempty_strip.
Qed.















Lemma parser_loop_before_header (items1 items2 : list string) (d : dict)
      (lines : list string) :
  flush (fold_left parser_step lines
                   {| parsed_data := d; current_section := None;
                      current_items := items1 |})
  = flush (fold_left parser_step lines
                     {| parsed_data := d; current_section := None;
                        current_items := items2 |}).
Proof.
  revert items1 items2. induction lines as [|raw lines IH]; intros items1 items2;
    [reflexivity|].
  cbn [fold_left]. unfold parser_step at 2 4.
  destruct (nonempty _ && negb _ && endswith_char _ ":"); [reflexivity|].
  destruct (String.eqb _ "must_include:"); [apply IH|].
  destruct (nonempty _ && (_ || _)); [|apply IH].
  destruct (nonempty (clean_item _)); apply IH.
Qed.

Lemma parser_loop_no_header (lines : list string) :
  Forall (fun raw => is_header raw = false) lines ->
  forall st, exists items,
    fold_left parser_step lines st
    = {| parsed_data := parsed_data st;
         current_section := current_section st;
         current_items := items |}.
Proof.
  induction 1 as [|raw lines Hh _ IH]; intros st.
  - exists (current_items st). now destruct st.
  - cbn [fold_left]. unfold parser_step at 2. unfold is_header in Hh. rewrite Hh.
    destruct (String.eqb _ "must_include:"); [apply IH|].
    destruct (nonempty _ && (_ || _)); [|apply IH].
    destruct (nonempty (clean_item _)); [|apply IH].
    destruct (IH {| parsed_data := parsed_data st;
                    current_section := current_section st;
                    current_items :=
                      (current_items st
                       ++ [clean_item (strip (rstrip_by is_line_end raw))])%list |})
      as [items E].
    exists items. exact E.
Qed.

(** X26. What stands in the file before the first section header is
    ignored: lines in front that are no header (no colon at the end, or a
    space in front) do not change the parsed whitelist. *)
Theorem lines_before_first_header_ignored (before rest : list string) :
  Forall (fun raw => is_header raw = false) before ->
  parse_whitelist_manual (before ++ rest)%list = parse_whitelist_manual rest.
Proof.
  intros Hb. unfold parse_whitelist_manual, parse_whitelist_manual_body.
  cbn [try_except]. rewrite fold_left_app.
  destruct (parser_loop_no_header before Hb parser_start) as [items ->].
  apply parser_loop_before_header.
Qed.

Lemma lines_before_first_header_ignored_witness :
  parse_whitelist_manual
    ["# site policy" ++ line_break; "  - orphan" ++ line_break;
     "ntp:" ++ line_break; "  - ntp master" ++ line_break]
  = parse_whitelist_manual ["ntp:" ++ line_break; "  - ntp master" ++ line_break].
Proof.
  apply (lines_before_first_header_ignored
           ["# site policy" ++ line_break; "  - orphan" ++ line_break]
           ["ntp:" ++ line_break; "  - ntp master" ++ line_break]).
  repeat constructor.
Defined.

(* ================================================================== *)
(** * Concrete runs *)

Local Open Scope Z_scope.

Lemma faulted_run_rows :
  fst faulted_run = [error_row "ntp" "Unknown-Device"].
Proof. reflexivity. Qed.

(** C1, as stated, fails: the one section of the run has status [error], no
    section has status [OK], and the score is 100 where the number of [OK]
    sections over the total gives 0. *)
Lemma compliance_score_counts_error_rows :
  fst faulted_run <> []
  /\ option_map compliance_percent (statistics_sheet (fst faulted_run) (snd faulted_run))
     = Some 100
  /\ format_0f (percentage (count_status OK (fst faulted_run))
                           (List.length (fst faulted_run)))
     = 0.
Proof.
  split; [discriminate|]. split; vm_compute; reflexivity.
Qed.

Lemma compliance_score_counts_witness :
  option_map compliance_percent
             (statistics_sheet
                [ {| section := "ntp"; hostname := "sw1"; status := OK;
                     missing_count := 0; additional_count := 0 |};
                  {| section := "vty"; hostname := "sw1"; status := to_check;
                     missing_count := 1; additional_count := 0 |};
                  {| section := "mtu"; hostname := "sw1"; status := error;
                     missing_count := 0; additional_count := 0 |} ]
                ["missing config: transport input ssh:sw1"])
  = Some 67
  /\
  option_map compliance_percent
             (statistics_sheet
                [ {| section := "ntp"; hostname := "sw1"; status := OK;
                     missing_count := 0; additional_count := 0 |};
                  {| section := "vty"; hostname := "sw1"; status := to_check;
                     missing_count := 1; additional_count := 0 |} ]
                ["missing config: transport input ssh:sw1"])
  = Some 50.
Proof.
  split.
  - refine (eq_trans (proj1 (compliance_score_counts _ _ _)) _).
    + discriminate.
    + vm_compute. reflexivity.
  - refine (eq_trans (proj2 (compliance_score_counts _ _ _) _) _).
    + discriminate.
    + reflexivity.
    + vm_compute. reflexivity.
Defined.

(** C2, as stated, fails: a template listed twice is reported twice. *)
Lemma missing_detection_listed_twice :
  In "ntp server 10.0.0.1" ["ntp server 10.0.0.1"; "ntp server 10.0.0.1"]
  /\ has_placeholder (normalized "ntp server 10.0.0.1") = false
  /\ ~ In (normalized "ntp server 10.0.0.1") (map normalized ["logging on"])
  /\ count_occ string_dec
               (fst (compare_configurations
                       re_fragment
                       (map JStr ["logging on"])
                       (map JStr ["ntp server 10.0.0.1"; "ntp server 10.0.0.1"])
                       "sw1" "ntp"))
               "missing config: ntp server 10.0.0.1:sw1"
     = 2%nat.
Proof.
  split; [now left|]. split; [reflexivity|]. split.
  - vm_compute. intros [H | []]. discriminate.
  - vm_compute. reflexivity.
Qed.

Lemma missing_detection_witness :
  count_occ string_dec
            (fst (compare_configurations
                    re_fragment
                    (map JStr ["logging on"])
                    (map JStr ["NTP server 10.0.0.1"; "ntp server [x.x.x.x]"])
                    "sw1" "ntp"))
            "missing config: NTP server 10.0.0.1:sw1"
  = 1%nat
  /\ ~ In "missing config: ntp server [x.x.x.x]:sw1"
          (fst (compare_configurations
                  re_fragment
                  (map JStr ["logging on"])
                  (map JStr ["NTP server 10.0.0.1"; "ntp server [x.x.x.x]"])
                  "sw1" "ntp")).
Proof.
  split.
  - refine (eq_trans
              (proj1 (missing_detection re_fragment ["logging on"]
                        ["NTP server 10.0.0.1"; "ntp server [x.x.x.x]"]
                        "sw1" "ntp" "NTP server 10.0.0.1") _ _) _).
    + reflexivity.
    + vm_compute. intros [H | []]. discriminate.
    + reflexivity.
  - apply (proj2 (missing_detection re_fragment ["logging on"]
                    ["NTP server 10.0.0.1"; "ntp server [x.x.x.x]"]
                    "sw1" "ntp" "ntp server [x.x.x.x]")).
    reflexivity.
Defined.

Lemma extra_suppression_witness :
  ~ In "additional config: ntp server 10.0.0.1 prefer:sw1"
       (snd (compare_configurations
               re_fragment
               (map JStr ["ntp server 10.0.0.1 prefer"])
               (map JStr ["NTP server [x.x.x.x]"])
               "sw1" "ntp"))
  /\ In "additional config: ntp server 10.0.0.1:sw1"
        (snd (compare_configurations
                re_fragment
                (map JStr ["ntp server 10.0.0.1"])
                (map JStr ["ntp server .+"; "ntp peer [x.x.x.x]"])
                "sw1" "ntp")).
Proof.
  split.
  - apply (proj1 (extra_suppression re_fragment ["ntp server 10.0.0.1 prefer"]
                    ["NTP server [x.x.x.x]"] "sw1" "ntp"
                    "ntp server 10.0.0.1 prefer")).
    exists "NTP server [x.x.x.x]".
    split; [now left|]. split; vm_compute; reflexivity.
  - apply (proj2 (extra_suppression re_fragment ["ntp server 10.0.0.1"]
                    ["ntp server .+"; "ntp peer [x.x.x.x]"]
                    "sw1" "ntp" "ntp server 10.0.0.1")).
    + intros w [<- | [<- | []]]; vm_compute; discriminate.
    + now left.
    + reflexivity.
    + vm_compute. intros [H | [H | []]]; discriminate.
Defined.

Lemma boilerplate_suppression_witness :
  ~ In "additional config: ip ssh Version 2:sw1"
       (snd (compare_configurations
               re_fragment (map JStr ["ip ssh Version 2"]) (map JStr ["ip ssh"])
               "sw1" "vty")).
Proof.
  apply (boilerplate_suppression re_fragment ["ip ssh Version 2"] ["ip ssh"]
           "sw1" "vty" "ip ssh Version 2").
  left. reflexivity.
Defined.

Lemma comparator_never_raises_witness :
  compare_configurations re_fragment [JInt 5] [JStr "ntp server 10.0.0.1"] "sw1" "ntp"
  = ([], [])
  /\
  compare_configurations_body re_fragment [JStr "logging on"] [JStr "[("] "sw1" "ntp"
  = Return (compare_configurations re_fragment [JStr "logging on"] [JStr "[("] "sw1" "ntp").
Proof.
  split.
  - apply (proj1 (comparator_never_raises re_fragment [JInt 5]
                    [JStr "ntp server 10.0.0.1"] "sw1" "ntp")).
    reflexivity.
  - apply (proj2 (proj2 (comparator_never_raises re_fragment [JStr "logging on"]
                           [JStr "[("] "sw1" "ntp"))).
    + constructor; [now exists "logging on" | constructor].
    + constructor; [now exists "[(" | constructor].
Defined.

Lemma finding_format_witness :
  (exists body,
      "additional config: logging on:sw1" = "missing config: " ++ body ++ ":" ++ "sw1"
      \/ "additional config: logging on:sw1"
         = "additional config: " ++ body ++ ":" ++ "sw1")
  /\
  (exists body,
      "missing config: ntp server 10.0.0.1:sw1"
      = "missing config: " ++ body ++ ":"
        ++ extract_hostname_from_output
             (JDict [("data", JDict [("version", JList [JStr "hostname sw1"])])])
      \/ "missing config: ntp server 10.0.0.1:sw1"
         = "additional config: " ++ body ++ ":"
           ++ extract_hostname_from_output
                (JDict [("data", JDict [("version", JList [JStr "hostname sw1"])])])).
Proof.
  split.
  - apply (proj1 (finding_format re_fragment
                    [JStr "logging on"] [JStr "ntp server 10.0.0.1"] "sw1" "ntp"
                    JNull [] "additional config: logging on:sw1")).
    vm_compute. right. now left.
  - apply (proj2 (finding_format re_fragment [] [] "sw1" "ntp"
                    (JDict [("data", JDict [("version", JList [JStr "hostname sw1"])])])
                    [("ntp", JDict [("must_include", JList [JStr "ntp server 10.0.0.1"])])]
                    "missing config: ntp server 10.0.0.1:sw1")).
    vm_compute. now left.
Defined.

Lemma vty_envelope_flattened_witness :
  parse_output_section
    (JDict [("changed", JBool false);
            ("stdout_lines",
             JList [JList [JStr "line vty 0 4"; JStr " !comment"; JStr ""];
                    JList [JStr "  transport input ssh "]])])
    "vty"
  = ["line vty 0 4"; "transport input ssh"].
Proof.
  refine (eq_trans
            (proj1 (vty_envelope_flattened
                      [("changed", JBool false);
                       ("stdout_lines",
                        JList [JList [JStr "line vty 0 4"; JStr " !comment"; JStr ""];
                               JList [JStr "  transport input ssh "]])]
                      [["line vty 0 4"; " !comment"; ""]; ["  transport input ssh "]]) _) _).
  - reflexivity.
  - reflexivity.
Defined.

Lemma non_vty_mapping_empty_witness :
  parse_output_section_body
    (JDict [("stdout_lines", JList [JList [JStr "ntp server 10.0.0.1"]])]) "ntp"
  = Return []
  /\ parse_output_section
       (JDict [("stdout_lines", JList [JList [JStr "ntp server 10.0.0.1"]])]) "ntp"
     = [].
Proof.
  apply (non_vty_mapping_empty
           [("stdout_lines", JList [JList [JStr "ntp server 10.0.0.1"]])] "ntp").
  discriminate.
Defined.
